(** * A shallow embedding of the TDD users REST API

    The repository is a three-layer JavaScript program: an in-memory
    [Database] (a [Map] of user records behind a connection flag), a
    [UserService] that validates input and wraps every outcome in a result
    envelope, and a [UserController] that turns envelopes into HTTP status
    codes.  This file embeds the three layers and the [Validator] utility
    as Rocq functions and proves properties of them.

    Modelling conventions.
    - A value parsed from a JSON body is a [jsval]: [null], a boolean, a
      number or a string.  [undefined] is the absence of a value, so a
      JavaScript expression that may be [undefined] has type
      [option jsval].  Nested objects and arrays as field values are not
      part of the embedding.
    - A number is a finite IEEE binary64 value, held as the rational it
      denotes ([Qc]).  Comparisons are exact; addition and division round
      to the nearest double, ties to even, as the Standard Library's
      [SpecFloat] specifies them.  NaN, the infinities and the sign of zero
      are not values of the embedding.
    - A string is a sequence of 8-bit code units.
    - A request body is a finite map from property names to [jsval]s; a
      stored record additionally holds [Date] objects, which only the
      store creates.
    - The store's operations are asynchronous in the source; here each one
      is a single atomic step on the store, taken when it is called. *)

From Stdlib Require Import Ascii String QArith Qcanon.
From Stdlib Require Import Floats.SpecFloat.
From stdpp Require Import base option list strings gmap.

Local Open Scope Z_scope.
Local Open Scope string_scope.

(** ** JavaScript values *)

Module JS.

Inductive jsval :=
| JNull
| JBool (b : bool)
| JNum (q : Qc)
| JStr (s : string).

#[global] Instance jsval_eq_dec : EqDecision jsval.
Proof. solve_decision. Defined.

(** A property of a stored record: a JSON value, or a [Date] with its
    time in milliseconds. *)
Inductive fieldval :=
| FJson (v : jsval)
| FDate (t : Z).

#[global] Instance fieldval_eq_dec : EqDecision fieldval.
Proof. solve_decision. Defined.

(** [obj] is a parsed JSON object, [record] an object held by the store. *)
Abbreviation obj := (gmap string jsval).
Abbreviation record := (gmap string fieldval).

Definition num (z : Z) : Qc := Q2Qc (inject_Z z).

(** [x <= y] and [x < y] on numbers. *)
Definition leb (x y : Qc) : bool := Qle_bool x y.
Definition ltb (x y : Qc) : bool := negb (Qle_bool y x).

(** [!!v]: the falsy values are [undefined], [null], [false], [0] and the
    empty string. *)
Definition truthy (v : option jsval) : bool :=
  match v with
  | None => false
  | Some JNull => false
  | Some (JBool b) => b
  | Some (JNum q) => negb (Qeq_bool q 0)
  | Some (JStr s) => negb (String.eqb s "")
  end.

(** [typeof v === 'string'] and [typeof v === 'number']. *)
Definition is_string (v : option jsval) : bool :=
  match v with Some (JStr _) => true | _ => false end.

Definition is_number (v : option jsval) : bool :=
  match v with Some (JNum _) => true | _ => false end.

(** [a === b] between a property read from a stored record and a JSON
    value: on JSON values strict equality is equality, and a [Date] object
    is never equal to one. *)
Definition strict_eq (a : option fieldval) (b : option jsval) : bool :=
  bool_decide (a = FJson <$> b).

(** White space and line terminators among the 8-bit code units: TAB, LF,
    VT, FF, CR, SP and NBSP. *)
Definition is_space (c : ascii) : bool :=
  match nat_of_ascii c with
  | 9 | 10 | 11 | 12 | 13 | 32 | 160 => true
  | _ => false
  end%nat.

(** [String.prototype.trim]. *)
Fixpoint trimStart (s : string) : string :=
  match s with
  | String c s' => if is_space c then trimStart s' else s
  | EmptyString => EmptyString
  end.

Fixpoint trimEnd (s : string) : string :=
  match s with
  | String c s' =>
      match trimEnd s' with
      | EmptyString => if is_space c then EmptyString else String c EmptyString
      | r => String c r
      end
  | EmptyString => EmptyString
  end.

Definition trim (s : string) : string := trimEnd (trimStart s).

(** The result of an arithmetic expression.  [None] is a result outside the
    embedding: JavaScript coerces an operand that is not a number, and the
    outcome is NaN, an infinity or a concatenated string. *)
Abbreviation number := (option Qc).

(** The binary64 format: 53 bits of precision, exponents below 1024. *)
Definition prec : Z := 53.
Definition emax : Z := 1024.

(** [Some k] when [d] is [2 ^ k]. *)
Fixpoint pow2_exponent (d : positive) : option Z :=
  match d with
  | xH => Some 0
  | xO d' => Z.succ <$> pow2_exponent d'
  | xI _ => None
  end.

(** The double nearest to a rational.  The value of a double is a fraction
    with a power of two as denominator and is its own nearest double; any
    other rational is rounded as the quotient of two integers. *)
Definition to_double (q : Qc) : spec_float :=
  match pow2_exponent (Qden q) with
  | Some k => binary_normalize prec emax (Qnum q) (- k) false
  | None =>
      SFdiv prec emax
        (binary_normalize prec emax (Qnum q) 0 false)
        (binary_normalize prec emax (Zpos (Qden q)) 0 false)
  end.

(** The value of a double; NaN and the infinities have none. *)
Definition of_double (f : spec_float) : number :=
  match f with
  | S754_zero _ => Some (num 0)
  | S754_finite s m e =>
      Some (Q2Qc (inject_Z (if s then Zneg m else Zpos m) * Qpower 2 e))
  | S754_infinity _ => None
  | S754_nan => None
  end.

(** A property of a record as an operand of arithmetic. *)
Definition operand (v : option fieldval) : number :=
  match v with
  | Some (FJson (JNum q)) => Some q
  | _ => None
  end.

(** [a + b] and [a / b] on numbers, rounded to binary64. *)
Definition add (a b : number) : number :=
  match a, b with
  | Some x, Some y => of_double (SFadd prec emax (to_double x) (to_double y))
  | _, _ => None
  end.

Definition div (a b : number) : number :=
  match a, b with
  | Some x, Some y => of_double (SFdiv prec emax (to_double x) (to_double y))
  | _, _ => None
  end.

Definition min2 (a b : number) : number :=
  match a, b with
  | Some x, Some y => Some (if leb x y then x else y)
  | _, _ => None
  end.

Definition max2 (a b : number) : number :=
  match a, b with
  | Some x, Some y => Some (if leb x y then y else x)
  | _, _ => None
  end.

(** [Math.min(...l)] and [Math.max(...l)]; of no arguments they are the
    infinities, which are outside the embedding. *)
Definition Math_min (l : list number) : number :=
  match l with
  | [] => None
  | x :: l' => fold_left min2 l' x
  end.

Definition Math_max (l : list number) : number :=
  match l with
  | [] => None
  | x :: l' => fold_left max2 l' x
  end.

(** [Array.prototype.join]. *)
Definition join (sep : string) (l : list string) : string :=
  String.concat sep l.

End JS.

(** ** Regular expressions

    [RegExp.prototype.test] for the anchored patterns of the source, by
    derivatives. *)

Module Regex.

Inductive regex :=
| Void
| Eps
| Class (p : ascii -> bool)
| Alt (r1 r2 : regex)
| Seq (r1 r2 : regex)
| Star (r : regex).

Definition Plus (r : regex) : regex := Seq r (Star r).
Definition Chr (c : ascii) : regex := Class (Ascii.eqb c).

Fixpoint nullable (r : regex) : bool :=
  match r with
  | Void => false
  | Eps => true
  | Class _ => false
  | Alt r1 r2 => nullable r1 || nullable r2
  | Seq r1 r2 => nullable r1 && nullable r2
  | Star _ => true
  end.

Fixpoint deriv (c : ascii) (r : regex) : regex :=
  match r with
  | Void => Void
  | Eps => Void
  | Class p => if p c then Eps else Void
  | Alt r1 r2 => Alt (deriv c r1) (deriv c r2)
  | Seq r1 r2 =>
      if nullable r1 then Alt (Seq (deriv c r1) r2) (deriv c r2)
      else Seq (deriv c r1) r2
  | Star r1 => Seq (deriv c r1) (Star r1)
  end.

(** [/^r$/.test(s)] *)
Fixpoint test (r : regex) (s : string) : bool :=
  match s with
  | EmptyString => nullable r
  | String c s' => test (deriv c r) s'
  end.

(** [[^\s@]] *)
Definition notSpaceAt : regex :=
  Class (fun c => negb (JS.is_space c) && negb (Ascii.eqb c "@")).

(** [/^[^\s@]+@[^\s@]+\.[^\s@]+$/] *)
Definition emailRegex : regex :=
  Seq (Plus notSpaceAt)
    (Seq (Chr "@") (Seq (Plus notSpaceAt) (Seq (Chr ".") (Plus notSpaceAt)))).

(** [r{n}] *)
Fixpoint Rep (n : nat) (r : regex) : regex :=
  match n with
  | O => Eps
  | S n' => Seq r (Rep n' r)
  end.

Definition in_range (lo hi c : ascii) : bool :=
  (nat_of_ascii lo <=? nat_of_ascii c)%nat
  && (nat_of_ascii c <=? nat_of_ascii hi)%nat.

(** [[0-9a-f]], [[1-5]] and [[89ab]] under the [i] flag, which lets a
    letter of a class match in either case. *)
Definition hex : regex :=
  Class (fun c => in_range "0" "9" c || in_range "a" "f" c
                  || in_range "A" "F" c).

Definition version : regex := Class (in_range "1" "5").

Definition variant : regex :=
  Class (fun c => in_range "8" "9" c || in_range "a" "b" c
                  || in_range "A" "B" c).

(** [/^[0-9a-f]{8}-[0-9a-f]{4}-[1-5][0-9a-f]{3}-[89ab][0-9a-f]{3}-[0-9a-f]{12}$/i] *)
Definition uuidRegex : regex :=
  Seq (Rep 8 hex)
    (Seq (Chr "-")
       (Seq (Rep 4 hex)
          (Seq (Chr "-")
             (Seq version
                (Seq (Rep 3 hex)
                   (Seq (Chr "-")
                      (Seq variant
                         (Seq (Rep 3 hex)
                            (Seq (Chr "-") (Rep 12 hex)))))))))).

(** [/[<>]/] *)
Definition angle (c : ascii) : bool := Ascii.eqb c "<" || Ascii.eqb c ">".

(** [s.replace(/[p]/g, '')]: every code unit of the class is dropped. *)
Fixpoint remove_all (p : ascii -> bool) (s : string) : string :=
  match s with
  | EmptyString => EmptyString
  | String c s' => if p c then remove_all p s' else String c (remove_all p s')
  end.

(** The strings of a regular expression. *)
Inductive matches : regex -> string -> Prop :=
| MEps : matches Eps ""
| MClass p c : p c = true -> matches (Class p) (String c "")
| MAltL r1 r2 s : matches r1 s -> matches (Alt r1 r2) s
| MAltR r1 r2 s : matches r2 s -> matches (Alt r1 r2) s
| MSeq r1 r2 s1 s2 :
    matches r1 s1 -> matches r2 s2 -> matches (Seq r1 r2) (s1 ++ s2)
| MStar0 r : matches (Star r) ""
| MStarS r s1 s2 :
    matches r s1 -> matches (Star r) s2 -> matches (Star r) (s1 ++ s2).

(** Every code unit of [s] satisfies [p]. *)
Fixpoint all_chars (p : ascii -> bool) (s : string) : bool :=
  match s with
  | EmptyString => true
  | String c s' => p c && all_chars p s'
  end.

(** The code units of [s] satisfy the predicates of [ps], one each. *)
Fixpoint pointwise (ps : list (ascii -> bool)) (s : string) : bool :=
  match ps, s with
  | [], EmptyString => true
  | p :: ps', String c s' => p c && pointwise ps' s'
  | _, _ => false
  end.

(** The class [[^\s@]] as a predicate, and the non-empty strings over
    it. *)
Definition not_space_at (c : ascii) : bool :=
  negb (JS.is_space c) && negb (Ascii.eqb c "@").

Definition word (s : string) : Prop :=
  s <> "" /\ all_chars not_space_at s = true.

(** What [uuidRegex] asks of the code unit at index [i]. *)
Definition uuid_unit (i : nat) (c : ascii) : bool :=
  match i with
  | 8 | 13 | 18 | 23 => Ascii.eqb "-" c
  | 14 => in_range "1" "5" c
  | 19 => in_range "8" "9" c || in_range "a" "b" c || in_range "A" "B" c
  | _ => in_range "0" "9" c || in_range "a" "f" c || in_range "A" "F" c
  end%nat.

(** The predicates of a regular expression that is a sequence of
    classes. *)
Fixpoint classes (r : regex) : option (list (ascii -> bool)) :=
  match r with
  | Eps => Some []
  | Class p => Some [p]
  | Seq r1 r2 =>
      match classes r1, classes r2 with
      | Some ps1, Some ps2 => Some (ps1 ++ ps2)%list
      | _, _ => None
      end
  | _ => None
  end.

End Regex.

Import JS.

(** ** The Validator utility (utils/validator.js) *)

Module Validator.

(** [Validator.isValidName]:
    [if (!name || typeof name !== 'string') return false;
     trimmedName.length >= 2 && trimmedName.length <= 100] *)
Definition isValidName (name : option jsval) : bool :=
  if negb (truthy name) || negb (is_string name) then false
  else
    match name with
    | Some (JStr s) =>
        let trimmedName := trim s in
        (2 <=? String.length trimmedName)%nat
        && (String.length trimmedName <=? 100)%nat
    | _ => false
    end.

(** [Validator.isValidAge]:
    [typeof age === 'number' && age >= 0 && age <= 150] *)
Definition isValidAge (age : option jsval) : bool :=
  match age with
  | Some (JNum q) => leb (num 0) q && leb q (num 150)
  | _ => false
  end.

(** [Validator.isValidEmail]:
    [if (!email || typeof email !== 'string') return false;
     emailRegex.test(email.trim())] *)
Definition isValidEmail (email : option jsval) : bool :=
  if negb (truthy email) || negb (is_string email) then false
  else
    match email with
    | Some (JStr s) => Regex.test Regex.emailRegex (trim s)
    | _ => false
    end.

(** [Validator.isValidUUID] *)
Definition isValidUUID (uuid : option jsval) : bool :=
  if negb (truthy uuid) || negb (is_string uuid) then false
  else
    match uuid with
    | Some (JStr s) => Regex.test Regex.uuidRegex s
    | _ => false
    end.

(** [Validator.sanitizeString]:
    [if (!str || typeof str !== 'string') return '';
     str.trim().replace(/[<>]/g, '')] *)
Definition sanitizeString (str : option jsval) : string :=
  if negb (truthy str) || negb (is_string str) then ""
  else
    match str with
    | Some (JStr s) => Regex.remove_all Regex.angle (trim s)
    | _ => ""
    end.

End Validator.

(** ** The mock database (data/database.js) *)

Module Database.

(** The outcome of awaiting a promise: its value, or the [message] of the
    [Error] it was rejected with. *)
Inductive promise (A : Type) :=
| Resolved (a : A)
| Rejected (message : string).
Arguments Resolved {A} a.
Arguments Rejected {A} message.

(** A JavaScript [Map] keeps its entries in insertion order.  Keys are the
    [id] properties of the records, compared by value. *)
Abbreviation Map := (list (option fieldval * record)).

Fixpoint Map_get (k : option fieldval) (m : Map) : option record :=
  match m with
  | [] => None
  | (k', v) :: m' => if decide (k' = k) then Some v else Map_get k m'
  end.

Definition Map_has (k : option fieldval) (m : Map) : bool :=
  match Map_get k m with Some _ => true | None => false end.

(** [set] on a present key replaces the value in place, on a new key it
    appends the entry. *)
Fixpoint Map_set (k : option fieldval) (v : record) (m : Map) : Map :=
  match m with
  | [] => [(k, v)]
  | (k', v') :: m' =>
      if decide (k' = k) then (k', v) :: m' else (k', v') :: Map_set k v m'
  end.

Fixpoint Map_delete (k : option fieldval) (m : Map) : Map :=
  match m with
  | [] => []
  | (k', v') :: m' =>
      if decide (k' = k) then m' else (k', v') :: Map_delete k m'
  end.

(** [Array.from(m.values())] *)
Definition Map_values (m : Map) : list record := map snd m.

(** A JSON value, or [undefined], as a property of a record. *)
Definition of_json (v : option jsval) : option fieldval := FJson <$> v.

(** Object spread: [{...target, ...source}]; the properties of [source]
    win. *)
Definition spread (target source : record) : record := source ∪ target.

Record Store := {
  users : Map;
  isConnected : bool
}.

(** [new Date('2023-01-01')] and [new Date('2023-01-02')], in milliseconds
    since the epoch. *)
Definition date_2023_01_01 : Z := 1672531200000.
Definition date_2023_01_02 : Z := 1672617600000.

(** The two sample users; [uuid1] and [uuid2] are what the two calls of
    [uuidv4()] return. *)
Definition sampleUsers (uuid1 uuid2 : string) : list record :=
  [ list_to_map
      [ ("id", FJson (JStr uuid1));
        ("name", FJson (JStr "John Doe"));
        ("email", FJson (JStr "john@example.com"));
        ("age", FJson (JNum (num 30)));
        ("createdAt", FDate date_2023_01_01);
        ("updatedAt", FDate date_2023_01_01) ];
    list_to_map
      [ ("id", FJson (JStr uuid2));
        ("name", FJson (JStr "Jane Smith"));
        ("email", FJson (JStr "jane@example.com"));
        ("age", FJson (JNum (num 25)));
        ("createdAt", FDate date_2023_01_02);
        ("updatedAt", FDate date_2023_01_02) ] ].

(** [sampleUsers.forEach(user => this.users.set(user.id, user))] *)
Definition seedData (uuid1 uuid2 : string) (d : Store) : Store :=
  {| users := fold_left (fun m user => Map_set (user !! "id") user m)
                (sampleUsers uuid1 uuid2) (users d);
     isConnected := isConnected d |}.

(** The constructor. *)
Definition new (uuid1 uuid2 : string) : Store :=
  seedData uuid1 uuid2 {| users := []; isConnected := false |}.

Definition connect (d : Store) : promise bool * Store :=
  (Resolved true, {| users := users d; isConnected := true |}).

Definition disconnect (d : Store) : promise bool * Store :=
  (Resolved true, {| users := users d; isConnected := false |}).

Definition isConnectedToDb (d : Store) : bool := isConnected d.

Definition notConnected {A} : promise A := Rejected "Database not connected".

Definition findAllUsers (d : Store) : promise (list record) * Store :=
  if negb (isConnected d) then (notConnected, d)
  else (Resolved (Map_values (users d)), d).

(** [this.users.get(id) || null]: [null] is [None] here. *)
Definition findUserById (id : option jsval) (d : Store)
  : promise (option record) * Store :=
  if negb (isConnected d) then (notConnected, d)
  else (Resolved (Map_get (of_json id) (users d)), d).

Definition findUserByEmail (email : option jsval) (d : Store)
  : promise (option record) * Store :=
  if negb (isConnected d) then (notConnected, d)
  else
    let user :=
      List.find (fun u => strict_eq (u !! "email") email)
        (Map_values (users d)) in
    (Resolved user, d).

(** [createUser]; [uuid] is the value of [uuidv4()], [createdNow] and
    [updatedNow] are the times of the two [new Date()]. *)
Definition createUser (uuid : string) (createdNow updatedNow : Z)
    (userData : obj) (d : Store) : promise record * Store :=
  if negb (isConnected d) then (notConnected, d)
  else
    let existingUser :=
      List.find (fun u => strict_eq (u !! "email") (userData !! "email"))
        (Map_values (users d)) in
    match existingUser with
    | Some _ => (Rejected "User with this email already exists", d)
    | None =>
        let newUser : record :=
          <["updatedAt" := FDate updatedNow]>
            (<["createdAt" := FDate createdNow]>
               (spread {["id" := FJson (JStr uuid)]} (FJson <$> userData))) in
        (Resolved newUser,
         {| users := Map_set (newUser !! "id") newUser (users d);
            isConnected := isConnected d |})
    end.

(** [updateUser]; [now] is the time of [new Date()]. *)
Definition updateUser (now : Z) (id : option jsval) (updateData : obj)
    (d : Store) : promise record * Store :=
  if negb (isConnected d) then (notConnected, d)
  else
    match Map_get (of_json id) (users d) with
    | None => (Rejected "User not found", d)
    | Some user =>
        let existingUser :=
          if truthy (updateData !! "email")
             && negb (strict_eq (user !! "email") (updateData !! "email"))
          then List.find
                 (fun u => strict_eq (u !! "email") (updateData !! "email"))
                 (Map_values (users d))
          else None in
        match existingUser with
        | Some _ => (Rejected "User with this email already exists", d)
        | None =>
            let updatedUser : record :=
              <["updatedAt" := FDate now]>
                (spread user (FJson <$> updateData)) in
            (Resolved updatedUser,
             {| users := Map_set (of_json id) updatedUser (users d);
                isConnected := isConnected d |})
        end
    end.

Definition deleteUser (id : option jsval) (d : Store)
  : promise bool * Store :=
  if negb (isConnected d) then (notConnected, d)
  else if negb (Map_has (of_json id) (users d))
  then (Rejected "User not found", d)
  else (Resolved true,
        {| users := Map_delete (of_json id) (users d);
           isConnected := isConnected d |}).

Definition clearAllData (d : Store) : promise bool * Store :=
  if negb (isConnected d) then (notConnected, d)
  else (Resolved true, {| users := []; isConnected := isConnected d |}).

End Database.

(** ** The service layer (services/userService.js) *)

Module UserService.

Import Database.

(** The service holds a [database] object and only calls six of its
    methods; [S] is the state of whatever object was injected (the mock
    database, or a test double). *)
Class DatabaseAPI (S : Type) := {
  db_findAllUsers : S -> promise (list record) * S;
  db_findUserById : option jsval -> S -> promise (option record) * S;
  db_findUserByEmail : option jsval -> S -> promise (option record) * S;
  db_createUser : obj -> S -> promise record * S;
  db_updateUser : option jsval -> obj -> S -> promise record * S;
  db_deleteUser : option jsval -> S -> promise bool * S
}.

(** The body of an [async] method: it runs on the state of the database
    and either returns or throws. *)
Definition async (S A : Type) : Type := S -> promise A * S.

Definition ret {S A} (a : A) : async S A := fun s => (Resolved a, s).

Definition await {S A B} (m : async S A) (k : A -> async S B) : async S B :=
  fun s =>
    match m s with
    | (Resolved a, s') => k a s'
    | (Rejected e, s') => (Rejected e, s')
    end.

(** [try { body } catch (error) { return handler(error.message) }] *)
Definition try_catch {S A} (body : async S A) (handler : string -> A)
  : S -> A * S :=
  fun s =>
    match body s with
    | (Resolved a, s') => (a, s')
    | (Rejected e, s') => (handler e, s')
    end.

Notation "'let*' x ':=' 'await' m 'in' k" := (await m (fun x => k))
  (at level 10, x binder, m at level 200, k at level 200).

Record stats := {
  totalUsers : nat;
  averageAge : number;
  youngestUser : number;
  oldestUser : number
}.

Inductive payload :=
| Users (l : list record)
| User (u : record)
| Stats (s : stats).

(** The result envelope [{ success, data?, error?, message }]; an absent
    property is [None]. *)
Record Envelope := {
  success : bool;
  data : option payload;
  error : option string;
  message : string
}.

Record validationResult := {
  isValid : bool;
  errors : list string
}.

(** [x.trim().length], for a string [x]. *)
Definition trim_length (x : option jsval) : nat :=
  match x with
  | Some (JStr s) => String.length (trim s)
  | _ => 0%nat
  end.

(** [isValidEmail]: [emailRegex.test(email)].  [test] converts its argument
    to a string; the text of [undefined], [null], a boolean or a number has
    no ['@'] and does not match.  An array or an object, whose text can
    match, is not a [jsval]. *)
Definition isValidEmail (email : option jsval) : bool :=
  match email with
  | Some (JStr s) => Regex.test Regex.emailRegex s
  | _ => false
  end.

Definition nameError : string := "Name must be at least 2 characters long".
Definition emailError : string := "Valid email is required".
Definition ageError : string := "Age must be a number between 0 and 150".

(** [typeof age !== 'number' || age < 0 || age > 150] *)
Definition age_out_of_range (age : option jsval) : bool :=
  match age with
  | Some (JNum q) => ltb q (num 0) || ltb (num 150) q
  | _ => true
  end.

Definition push_if (c : bool) (e : string) (errors : list string)
  : list string :=
  if c then (errors ++ [e])%list else errors.

(** The conditions of the three [if]s of [validateUserData]. *)
Definition name_rejected (name : option jsval) : bool :=
  negb (truthy name) || negb (is_string name) || (trim_length name <? 2)%nat.

Definition email_rejected (email : option jsval) : bool :=
  negb (truthy email) || negb (isValidEmail email).

Definition age_rejected (age : option jsval) : bool :=
  match age with
  | None | Some JNull => true
  | age => age_out_of_range age
  end.

(** [validateUserData] *)
Definition validateUserData (userData : obj) : validationResult :=
  let errors := [] in
  let errors := push_if (name_rejected (userData !! "name")) nameError errors in
  let errors :=
    push_if (email_rejected (userData !! "email")) emailError errors in
  let errors := push_if (age_rejected (userData !! "age")) ageError errors in
  {| isValid := (length errors =? 0)%nat; errors := errors |}.

(** The conditions of the three [if]s of [validateUpdateData]: the outer
    [x !== undefined] and the inner test. *)
Definition name_update_rejected (name : option jsval) : bool :=
  match name with
  | None => false
  | name => negb (is_string name) || (trim_length name <? 2)%nat
  end.

Definition email_update_rejected (email : option jsval) : bool :=
  match email with
  | None => false
  | email => negb (isValidEmail email)
  end.

Definition age_update_rejected (age : option jsval) : bool :=
  match age with
  | None => false
  | age => age_out_of_range age
  end.

(** [validateUpdateData] *)
Definition validateUpdateData (updateData : obj) : validationResult :=
  let errors := [] in
  let errors :=
    push_if (name_update_rejected (updateData !! "name")) nameError errors in
  let errors :=
    push_if (email_update_rejected (updateData !! "email")) emailError errors in
  let errors :=
    push_if (age_update_rejected (updateData !! "age")) ageError errors in
  {| isValid := (length errors =? 0)%nat; errors := errors |}.

(** What the update validation requires of a property that is present.
    For a number, being from 0 to 150 is being neither below 0 nor above
    150. *)
Definition valid_name (name : option jsval) : Prop :=
  exists s, name = Some (JStr s) /\ (2 <= String.length (trim s))%nat.

Definition valid_age (age : option jsval) : Prop :=
  exists q, age = Some (JNum q) /\ (num 0 <= q)%Qc /\ (q <= num 150)%Qc.

(** A patch with at least one property that is present and invalid. *)
Definition present_but_invalid (updateData : obj) : Prop :=
  (is_Some (updateData !! "name") /\ ~ valid_name (updateData !! "name"))
  \/ (is_Some (updateData !! "email")
      /\ isValidEmail (updateData !! "email") = false)
  \/ (is_Some (updateData !! "age") /\ ~ valid_age (updateData !! "age")).

Definition notFound : Envelope :=
  {| success := false; data := None; error := Some "User not found";
     message := "User with the specified ID does not exist" |}.

Definition failure (e m : string) : Envelope :=
  {| success := false; data := None; error := Some e; message := m |}.

(** The shape of an envelope: [error] is present exactly on failure, and a
    failure has no [data]. *)
Definition error_iff_failure (e : Envelope) : Prop :=
  (success e = true -> error e = None)
  /\ (success e = false -> is_Some (error e) /\ data e = None).

Definition data_on_success (e : Envelope) : Prop :=
  success e = true -> is_Some (data e).

Section Service.

Context {S : Type} `{DatabaseAPI S}.

Definition getAllUsers : S -> Envelope * S :=
  try_catch
    (let* users := await db_findAllUsers in
     ret {| success := true; data := Some (Users users); error := None;
            message := "Users retrieved successfully" |})
    (fun e => failure e "Failed to retrieve users").

Definition getUserById (id : option jsval) : S -> Envelope * S :=
  try_catch
    (if negb (truthy id) then
       ret (failure "User ID is required" "Invalid input")
     else
       let* user := await db_findUserById id in
       match user with
       | None =>
           ret (failure "User not found"
                  "User with the specified ID does not exist")
       | Some user =>
           ret {| success := true; data := Some (User user); error := None;
                  message := "User retrieved successfully" |}
       end)
    (fun e => failure e "Failed to retrieve user").

Definition createUser (userData : obj) : S -> Envelope * S :=
  try_catch
    (let validationResult := validateUserData userData in
     if negb (isValid validationResult) then
       ret (failure (join ", " (errors validationResult)) "Validation failed")
     else
       let* existingUser := await db_findUserByEmail (userData !! "email") in
       match existingUser with
       | Some _ =>
           ret (failure "User with this email already exists"
                  "Duplicate email address")
       | None =>
           let* newUser := await db_createUser userData in
           ret {| success := true; data := Some (User newUser);
                  error := None; message := "User created successfully" |}
       end)
    (fun e => failure e "Failed to create user").

Definition updateUser (id : option jsval) (updateData : obj)
  : S -> Envelope * S :=
  try_catch
    (if negb (truthy id) then
       ret (failure "User ID is required" "Invalid input")
     else
       let validationResult := validateUpdateData updateData in
       if negb (isValid validationResult) then
         ret (failure (join ", " (errors validationResult))
                "Validation failed")
       else
         let* existingUser := await db_findUserById id in
         match existingUser with
         | None =>
             ret (failure "User not found"
                    "User with the specified ID does not exist")
         | Some _ =>
             let* updatedUser := await db_updateUser id updateData in
             ret {| success := true; data := Some (User updatedUser);
                    error := None; message := "User updated successfully" |}
         end)
    (fun e => failure e "Failed to update user").

Definition deleteUser (id : option jsval) : S -> Envelope * S :=
  try_catch
    (if negb (truthy id) then
       ret (failure "User ID is required" "Invalid input")
     else
       let* existingUser := await db_findUserById id in
       match existingUser with
       | None =>
           ret (failure "User not found"
                  "User with the specified ID does not exist")
       | Some _ =>
           let* _ := await db_deleteUser id in
           ret {| success := true; data := None; error := None;
                  message := "User deleted successfully" |}
       end)
    (fun e => failure e "Failed to delete user").

Definition getUserStats : S -> Envelope * S :=
  try_catch
    (let* users := await db_findAllUsers in
     let ages := map (fun user : record => operand (user !! "age")) users in
     let stats :=
       {| totalUsers := length users;
          averageAge :=
            if (0 <? length users)%nat then
              div (fold_left (fun sum user => add sum (operand (user !! "age")))
                     users (Some (num 0)))
                (Some (num (Z.of_nat (length users))))
            else Some (num 0);
          youngestUser :=
            if (0 <? length users)%nat then Math_min ages else Some (num 0);
          oldestUser :=
            if (0 <? length users)%nat then Math_max ages
            else Some (num 0) |} in
     ret {| success := true; data := Some (Stats stats); error := None;
            message := "User statistics retrieved successfully" |})
    (fun e => failure e "Failed to retrieve user statistics").

End Service.

(** The mock database as the injected object, in an environment where
    [uuidv4()] returns [uuid] and the clock reads [createdNow] and
    [updatedNow]. *)
Definition mockDatabase (uuid : string) (createdNow updatedNow : Z)
  : DatabaseAPI Store :=
  {| db_findAllUsers := Database.findAllUsers;
     db_findUserById := Database.findUserById;
     db_findUserByEmail := Database.findUserByEmail;
     db_createUser := Database.createUser uuid createdNow updatedNow;
     db_updateUser := Database.updateUser updatedNow;
     db_deleteUser := Database.deleteUser |}.

End UserService.

(** ** The controller (controllers/userController.js) *)

Module UserController.

Import Database UserService.

(** [res.status(code).json(body)] *)
Record Response := {
  status : Z;
  json : Envelope
}.

(** What [updateUser] sends for the envelope the service returned. *)
Definition updateUser_response (result : Envelope) : Response :=
  if success result then
    {| status := 200;
       json := {| success := true; data := data result; error := None;
                  message := message result |} |}
  else
    let statusCode :=
      if bool_decide (error result = Some "User not found") then 404
      else if bool_decide
                (error result = Some "User with this email already exists")
      then 409
      else 400 in
    {| status := statusCode;
       json := {| success := false; data := None; error := error result;
                  message := message result |} |}.

(** [updateUser(req, res)] with [id = req.params.id] and
    [updateData = req.body].  The service catches every error of the
    database itself, so the handler's own [catch] is never entered. *)
Definition updateUser {S : Type} `{DatabaseAPI S}
    (id : option jsval) (updateData : obj) : S -> Response * S :=
  fun s =>
    let (result, s') := UserService.updateUser id updateData s in
    (updateUser_response result, s').

End UserController.

(** ** The other handlers of the controller *)

Module Handlers.

Import Database UserService UserController.

(** The bodies the handlers send. *)
Definition ok_body (result : Envelope) : Envelope :=
  {| success := true; data := data result; error := None;
     message := message result |}.

Definition error_body (result : Envelope) : Envelope :=
  {| success := false; data := None; error := error result;
     message := message result |}.

(** What [getAllUsers] sends for the envelope the service returned. *)
Definition getAllUsers_response (result : Envelope) : Response :=
  if success result then {| status := 200; json := ok_body result |}
  else {| status := 500; json := error_body result |}.

Definition getUserById_response (result : Envelope) : Response :=
  if success result then {| status := 200; json := ok_body result |}
  else
    let statusCode :=
      if bool_decide (error result = Some "User not found") then 404
      else 400 in
    {| status := statusCode; json := error_body result |}.

Definition createUser_response (result : Envelope) : Response :=
  if success result then {| status := 201; json := ok_body result |}
  else
    let statusCode :=
      if bool_decide
           (error result = Some "User with this email already exists")
      then 409
      else 400 in
    {| status := statusCode; json := error_body result |}.

(** The body of a successful deletion is [{ success: true, message }]. *)
Definition deleteUser_response (result : Envelope) : Response :=
  if success result then
    {| status := 200;
       json := {| success := true; data := None; error := None;
                  message := message result |} |}
  else
    let statusCode :=
      if bool_decide (error result = Some "User not found") then 404
      else 400 in
    {| status := statusCode; json := error_body result |}.

Definition getUserStats_response (result : Envelope) : Response :=
  if success result then {| status := 200; json := ok_body result |}
  else {| status := 500; json := error_body result |}.

(** The handlers, with [id = req.params.id] and [userData = req.body].
    As for [updateUser], their own [catch] is never entered. *)
Definition getAllUsers {S : Type} `{DatabaseAPI S} : S -> Response * S :=
  fun s =>
    let (result, s') := UserService.getAllUsers s in
    (getAllUsers_response result, s').

Definition getUserById {S : Type} `{DatabaseAPI S} (id : option jsval)
  : S -> Response * S :=
  fun s =>
    let (result, s') := UserService.getUserById id s in
    (getUserById_response result, s').

Definition createUser {S : Type} `{DatabaseAPI S} (userData : obj)
  : S -> Response * S :=
  fun s =>
    let (result, s') := UserService.createUser userData s in
    (createUser_response result, s').

Definition deleteUser {S : Type} `{DatabaseAPI S} (id : option jsval)
  : S -> Response * S :=
  fun s =>
    let (result, s') := UserService.deleteUser id s in
    (deleteUser_response result, s').

Definition getUserStats {S : Type} `{DatabaseAPI S} : S -> Response * S :=
  fun s =>
    let (result, s') := UserService.getUserStats s in
    (getUserStats_response result, s').

End Handlers.

(** ** Runs of the store

    A client of the store calls its operations one after the other; every
    call comes with what the environment supplies to it (identifiers,
    clock readings). *)

Module Run.

Import Database.

Inductive operation :=
| Connect
| Disconnect
| Create (uuid : string) (createdNow updatedNow : Z) (userData : obj)
| Update (now : Z) (id : option jsval) (updateData : obj)
| Delete (id : option jsval)
| Clear.

Definition perform (d : Store) (o : operation) : Store :=
  match o with
  | Connect => (connect d).2
  | Disconnect => (disconnect d).2
  | Create uuid createdNow updatedNow userData =>
      (createUser uuid createdNow updatedNow userData d).2
  | Update now id updateData => (updateUser now id updateData d).2
  | Delete id => (deleteUser id d).2
  | Clear => (clearAllData d).2
  end.

(** The state after a run that starts from a freshly constructed store. *)
Definition run (uuid1 uuid2 : string) (ops : list operation) : Store :=
  fold_left perform ops (new uuid1 uuid2).

(** The [email] properties of the stored records, in storage order. *)
Definition Map_emails (m : Map) : list (option fieldval) :=
  map (fun u : record => u !! "email") (Map_values m).

Definition emails (d : Store) : list (option fieldval) :=
  Map_emails (users d).

(** An update whose patch has an [email] has a truthy one. *)
Definition email_patch_truthy (o : operation) : bool :=
  match o with
  | Update _ _ updateData =>
      match updateData !! "email" with
      | None => true
      | email => truthy email
      end
  | _ => true
  end.

(** The keys of the [Map], in storage order. *)
Definition Map_keys (m : Map) : list (option fieldval) := map fst m.

(** Every record is stored under its own [id]. *)
Definition keyed_by_id (m : Map) : Prop :=
  forall k u, In (k, u) m -> u !! "id" = k.

(** An update whose patch does not name [id]. *)
Definition patch_without_id (o : operation) : bool :=
  match o with
  | Update _ _ updateData => bool_decide (updateData !! "id" = None)
  | _ => true
  end.

(** The emails an operation brings are strings: the creation data of a
    [Create] has a string as [email] or none, the patch of an [Update] a
    string that is not empty or none. *)
Definition string_emails (o : operation) : bool :=
  match o with
  | Create _ _ _ userData =>
      match userData !! "email" with
      | None | Some (JStr _) => true
      | Some _ => false
      end
  | Update _ _ updateData =>
      match updateData !! "email" with
      | None => true
      | Some (JStr s) => negb (String.eqb s "")
      | Some _ => false
      end
  | _ => true
  end.

End Run.

(** ** Statistics of a list of ages *)

Module Statistics.

Definition total (qs : list Qc) : Qc := fold_right Qcplus (num 0) qs.

(** The arithmetic mean of a list that is not empty. *)
Definition mean (qs : list Qc) : Qc :=
  (total qs / num (Z.of_nat (length qs)))%Qc.

(** The sum and the mean in binary64, added from the left and from 0:
    every addition and the division round. *)
Definition rounded_total (qs : list Qc) : number :=
  fold_left add (map Some qs) (Some (num 0)).

Definition rounded_mean (qs : list Qc) : number :=
  div (rounded_total qs) (Some (num (Z.of_nat (length qs)))).

Definition is_minimum (m : Qc) (qs : list Qc) : Prop :=
  In m qs /\ forall q, In q qs -> (m <= q)%Qc.

Definition is_maximum (m : Qc) (qs : list Qc) : Prop :=
  In m qs /\ forall q, In q qs -> (q <= m)%Qc.

(** The [age] properties of a listing are the numbers [ages]. *)
Definition ages_of (users : list record) (ages : list Qc) : Prop :=
  map (fun u : record => u !! "age") users
  = map (fun q => Some (FJson (JNum q))) ages.

End Statistics.

(** ** Sample data *)

Module Sample.

Import Database UserService.

(** A connected store holding the two seeded users. *)
Definition seeded : Store := (connect (new "id-1" "id-2")).2.

Definition john : option jsval := Some (JStr "id-1").
Definition jane : option jsval := Some (JStr "id-2").

Definition testUser : obj :=
  list_to_map
    [ ("name", JStr "Test User");
      ("email", JStr "test@example.com");
      ("age", JNum (num 25)) ].

(** Creation data that brings its own time stamps. *)
Definition stampedUser : obj :=
  <["createdAt" := JStr "1999-12-31"]>
    (<["updatedAt" := JNum (num 0)]> testUser).

(** Creation data that brings the identifier of the first seeded user. *)
Definition mallory : obj :=
  list_to_map
    [ ("id", JStr "id-1");
      ("name", JStr "Mallory");
      ("email", JStr "mallory@example.com");
      ("age", JNum (num 40)) ].

(** A patch that names the server-side properties. *)
Definition rewritePatch : obj :=
  list_to_map [ ("id", JStr "id-9"); ("createdAt", JStr "1999-12-31") ].

(** Creation data whose name has 101 characters. *)
Definition longName : string := string_of_list_ascii (repeat "a"%char 101).

Definition longNamed : obj :=
  list_to_map
    [ ("name", JStr longName);
      ("email", JStr "long@example.com");
      ("age", JNum (num 30)) ].

(** A patch whose name has 101 characters. *)
Definition longNamePatch : obj := {["name" := JStr longName]}.

(** Creation data and a patch with the empty email. *)
Definition emptyEmailUser : obj :=
  list_to_map
    [ ("name", JStr "Nobody"); ("email", JStr ""); ("age", JNum (num 20)) ].

Definition emptyEmailPatch : obj := {["email" := JStr ""]}.

(** A patch with an age out of range, and one that takes the email of the
    second seeded user. *)
Definition agePatch : obj := {["age" := JNum (num 200)]}.
Definition emailPatch : obj := {["email" := JStr "jane@example.com"]}.

(** A database double whose listing has three users, of ages 30, 25 and
    35. *)
Definition threeUsers : list record :=
  [ {["age" := FJson (JNum (num 30))]};
    {["age" := FJson (JNum (num 25))]};
    {["age" := FJson (JNum (num 35))]} ].

(** Three users of ages 30, 25 and 36. *)
Definition thirdsUsers : list record :=
  [ {["age" := FJson (JNum (num 30))]};
    {["age" := FJson (JNum (num 25))]};
    {["age" := FJson (JNum (num 36))]} ].

Definition listing (users : list record) : DatabaseAPI unit :=
  {| db_findAllUsers := fun s => (Resolved users, s);
     db_findUserById := fun _ s => (Resolved None, s);
     db_findUserByEmail := fun _ s => (Resolved None, s);
     db_createUser := fun _ s => (Rejected "unused", s);
     db_updateUser := fun _ _ s => (Rejected "unused", s);
     db_deleteUser := fun _ s => (Resolved true, s) |}.

(** A run in which two updates carry an empty email. *)
Definition emptyEmailRun : list Run.operation :=
  [ Run.Connect;
    Run.Update 2000 john emptyEmailPatch;
    Run.Update 2001 jane emptyEmailPatch ].

(** A run through every operation, with truthy emails only. *)
Definition mixedRun : list Run.operation :=
  [ Run.Connect;
    Run.Create "id-3" 1000 1001 testUser;
    Run.Update 2000 john {["email" := JStr "test@example.com"]};
    Run.Update 2001 john {["email" := JStr "johnny@example.com"]};
    Run.Create "id-4" 3000 3001 mallory;
    Run.Delete jane;
    Run.Disconnect;
    Run.Clear;
    Run.Connect;
    Run.Update 4000 (Some (JStr "id-3")) {["name" := JStr "Renamed"]} ].

(** A test double that records the name of every method called on it. *)
Definition called (method : string) (log : list string) : list string :=
  (log ++ [method])%list.

Definition recorder : DatabaseAPI (list string) :=
  {| db_findAllUsers := fun log => (Resolved [], called "findAllUsers" log);
     db_findUserById :=
       fun _ log => (Resolved None, called "findUserById" log);
     db_findUserByEmail :=
       fun _ log => (Resolved None, called "findUserByEmail" log);
     db_createUser :=
       fun _ log => (Rejected "unused", called "createUser" log);
     db_updateUser :=
       fun _ _ log => (Rejected "unused", called "updateUser" log);
     db_deleteUser := fun _ log => (Resolved true, called "deleteUser" log) |}.

End Sample.

(** * Properties *)

Import Database UserService UserController Run Statistics.

(** ** The embedding on the inputs of the repository's tests *)

Example trim_strips_both_ends : trim "  ab c  " = "ab c".
Proof. reflexivity. Qed.

Example emailRegex_examples :
  Regex.test Regex.emailRegex "john@example.com" = true
  /\ Regex.test Regex.emailRegex "a@b.c.d" = true
  /\ Regex.test Regex.emailRegex "invalid" = false
  /\ Regex.test Regex.emailRegex "john@example" = false
  /\ Regex.test Regex.emailRegex "jo hn@example.com" = false
  /\ Regex.test Regex.emailRegex "john@@example.com" = false.
Proof. repeat split; vm_compute; reflexivity. Qed.

(** [{ name: 'A', email: 'invalid', age: 200 }] collects the three
    messages, in the order name, email, age. *)
Example validateUserData_all_invalid :
  let v := validateUserData
             (list_to_map [ ("name", JStr "A"); ("email", JStr "invalid");
                            ("age", JNum (num 200)) ]) in
  isValid v = false
  /\ join ", " (errors v)
     = "Name must be at least 2 characters long, Valid email is required, Age must be a number between 0 and 150".
Proof. split; vm_compute; reflexivity. Qed.

(** The ages 0 and 150 pass creation validation, -1 and 151 do not. *)
Example validateUserData_age_bounds :
  let with_age z := <["age" := JNum (num z)]> Sample.testUser in
  errors (validateUserData (with_age 0)) = []
  /\ errors (validateUserData (with_age 150)) = []
  /\ errors (validateUserData (with_age (-1))) = [ageError]
  /\ errors (validateUserData (with_age 151)) = [ageError].
Proof. repeat split; vm_compute; reflexivity. Qed.

(** Create, update, delete and look up again, through the service on the
    mock database. *)
Example lifecycle :
  let db := mockDatabase "id-3" 1000 2000 in
  let '(created, d1) := @UserService.createUser _ db Sample.testUser
                          Sample.seeded in
  let id := Some (JStr "id-3") in
  let '(updated, d2) := @UserService.updateUser _ db id
                          {["age" := JNum (num 26)]} d1 in
  let '(deleted, d3) := @UserService.deleteUser _ db id d2 in
  let '(found, d4) := @UserService.getUserById _ db id d3 in
  success created = true
  /\ (exists u, data updated = Some (User u)
                /\ u !! "age" = Some (FJson (JNum (num 26)))
                /\ u !! "email" = Some (FJson (JStr "test@example.com")))
  /\ success deleted = true
  /\ found = notFound.
Proof.
  vm_compute. split; [reflexivity|]. split; [|split; reflexivity].
  eexists. split; [reflexivity|]. split; reflexivity.
Qed.

(** ** The [Map] *)

Lemma Map_get_set_eq k v m : Map_get k (Map_set k v m) = Some v.
Proof.
  induction m as [|[k' v'] m IH]; simpl.
  - by rewrite decide_True.
  - destruct (decide (k' = k)) as [->|Hne]; simpl.
    + by rewrite decide_True.
    + by rewrite decide_False.
Qed.

Lemma Map_get_set_ne k k' v m :
  k <> k' -> Map_get k' (Map_set k v m) = Map_get k' m.
Proof.
  intros Hne. induction m as [|[k0 v0] m IH]; simpl.
  - by rewrite decide_False.
  - destruct (decide (k0 = k)) as [->|Hk]; simpl.
    + by rewrite !decide_False.
    + by rewrite IH.
Qed.

Lemma Map_get_In k v m : Map_get k m = Some v -> In v (Map_values m).
Proof.
  induction m as [|[k' v'] m IH]; simpl; [discriminate|].
  destruct (decide (k' = k)); [intros [= ->]; by left|].
  intros Hg. right. by apply IH.
Qed.

(** ** The connection gate *)

(** C8: every data operation of the store, called while the store is
    disconnected, is rejected with 'Database not connected' and leaves the
    store as it was. *)
Theorem C8_disconnected_store_rejects
    (d : Store) (uuid : string) (createdNow updatedNow now : Z)
    (id email : option jsval) (userData updateData : obj) :
  isConnected d = false ->
  findAllUsers d = (Rejected "Database not connected", d)
  /\ findUserById id d = (Rejected "Database not connected", d)
  /\ findUserByEmail email d = (Rejected "Database not connected", d)
  /\ Database.createUser uuid createdNow updatedNow userData d
     = (Rejected "Database not connected", d)
  /\ Database.updateUser now id updateData d
     = (Rejected "Database not connected", d)
  /\ Database.deleteUser id d = (Rejected "Database not connected", d)
  /\ clearAllData d = (Rejected "Database not connected", d).
Proof.
  intros Hd.
  unfold findAllUsers, findUserById, findUserByEmail, Database.createUser,
    Database.updateUser, Database.deleteUser, clearAllData, notConnected.
  rewrite Hd. simpl. repeat split.
Qed.

Lemma C8_disconnected_store_rejects_witness :
  isConnected (new "id-1" "id-2") = false
  /\ Database.createUser "id-3" 1 2 Sample.testUser (new "id-1" "id-2")
     = (Rejected "Database not connected", new "id-1" "id-2").
Proof.
  split; [reflexivity|].
  apply (C8_disconnected_store_rejects (new "id-1" "id-2") "id-3" 1 2 3
           Sample.john None Sample.testUser ∅).
  reflexivity.
Defined.

(** ** Creation *)

Lemma createUser_resolved uuid createdNow updatedNow userData d u d' :
  Database.createUser uuid createdNow updatedNow userData d
  = (Resolved u, d') ->
  u = <["updatedAt" := FDate updatedNow]>
        (<["createdAt" := FDate createdNow]>
           (spread {["id" := FJson (JStr uuid)]} (FJson <$> userData)))
  /\ d' = {| users := Map_set (u !! "id") u (users d);
             isConnected := isConnected d |}.
Proof.
  unfold Database.createUser, notConnected.
  destruct (isConnected d); simpl; [|discriminate].
  destruct (List.find _ _); [discriminate|].
  intros [= <- <-]. split; reflexivity.
Qed.

(** C10: the record that [Database.createUser] stores and returns carries
    the store's own stamps in [createdAt] and [updatedAt], whatever the
    creation data holds under those names. *)
Theorem C10_create_stamps_override_payload
    (uuid : string) (createdNow updatedNow : Z) (userData : obj)
    (d d' : Store) (u : record) :
  Database.createUser uuid createdNow updatedNow userData d
  = (Resolved u, d') ->
  u !! "createdAt" = Some (FDate createdNow)
  /\ u !! "updatedAt" = Some (FDate updatedNow)
  /\ Map_get (u !! "id") (users d') = Some u.
Proof.
  intros Hc. apply createUser_resolved in Hc as [Hu ->]. simpl.
  split; [|split].
  - rewrite Hu. rewrite lookup_insert_ne by done. apply lookup_insert_eq.
  - rewrite Hu. apply lookup_insert_eq.
  - apply Map_get_set_eq.
Qed.

Lemma C10_create_stamps_override_payload_witness :
  exists u d',
    Database.createUser "id-3" 1000 1001 Sample.stampedUser Sample.seeded
    = (Resolved u, d')
    /\ u !! "createdAt" = Some (FDate 1000)
    /\ u !! "updatedAt" = Some (FDate 1001)
    /\ Map_get (u !! "id") (users d') = Some u.
Proof.
  eexists _, _. split; [reflexivity|].
  apply (C10_create_stamps_override_payload "id-3" 1000 1001
           Sample.stampedUser Sample.seeded).
  reflexivity.
Defined.

Lemma createUser_without_id uuid createdNow updatedNow userData d :
  isConnected d = true ->
  userData !! "id" = None ->
  List.find (fun u : record => strict_eq (u !! "email") (userData !! "email"))
    (Map_values (users d)) = None ->
  exists u d',
    Database.createUser uuid createdNow updatedNow userData d = (Resolved u, d')
    /\ u !! "id" = Some (FJson (JStr uuid))
    /\ Map_get (Some (FJson (JStr uuid))) (users d') = Some u
    /\ forall k, k <> Some (FJson (JStr uuid)) ->
         Map_get k (users d') = Map_get k (users d).
Proof.
  intros Hc Hid Hfind. unfold Database.createUser. rewrite Hc, Hfind. simpl.
  set (u := <["updatedAt" := _]> _).
  assert (Hu : u !! "id" = Some (FJson (JStr uuid))).
  { subst u. rewrite !lookup_insert_ne by done. unfold spread.
    rewrite lookup_union_r by (by rewrite lookup_fmap, Hid).
    apply lookup_singleton_eq. }
  exists u, {| users := Map_set (u !! "id") u (users d); isConnected := true |}.
  split; [reflexivity|]. split; [exact Hu|]. simpl. rewrite Hu. split.
  - apply Map_get_set_eq.
  - intros k Hk. apply Map_get_set_ne. congruence.
Qed.

(** C1: on creation data that carries an [id] property,
    [Database.createUser] keeps that [id] instead of the generated one.
    Here the data carries the identifier of the first seeded user and an
    unused email: the call is accepted, the returned record has the
    identifier that was already in the store, nothing is stored under the
    generated identifier, and the first seeded user is gone. *)
Theorem C1_create_keeps_payload_id :
  List.find
    (fun u : record => strict_eq (u !! "email") (Sample.mallory !! "email"))
    (Map_values (users Sample.seeded)) = None
  /\ Map_has (Some (FJson (JStr "id-1"))) (users Sample.seeded) = true
  /\ exists u d',
       Database.createUser "id-3" 1000 1001 Sample.mallory Sample.seeded
       = (Resolved u, d')
       /\ u !! "id" = Some (FJson (JStr "id-1"))
       /\ Map_get (Some (FJson (JStr "id-1"))) (users d') = Some u
       /\ Map_has (Some (FJson (JStr "id-3"))) (users d') = false
       /\ length (users d') = 2%nat
       /\ findUserByEmail (Some (JStr "john@example.com")) d'
          = (Resolved None, d')
       /\ UserService.success
            (@UserService.createUser _
               (UserService.mockDatabase "id-3" 1000 1001)
               Sample.mallory Sample.seeded).1 = true.
Proof.
  split; [vm_compute; reflexivity|]. split; [vm_compute; reflexivity|].
  eexists _, _. split; [reflexivity|].
  repeat split; vm_compute; reflexivity.
Qed.

(** ** Update *)

Lemma updateUser_resolved now id updateData d u u' d' :
  Map_get (of_json id) (users d) = Some u ->
  Database.updateUser now id updateData d = (Resolved u', d') ->
  u' = <["updatedAt" := FDate now]> (spread u (FJson <$> updateData))
  /\ d' = {| users := Map_set (of_json id) u' (users d);
             isConnected := isConnected d |}.
Proof.
  intros Hu. unfold Database.updateUser, notConnected. rewrite Hu.
  destruct (isConnected d); simpl; [|discriminate].
  match goal with
  | |- context [match ?x with Some _ => _ | None => _ end] => destruct x
  end; [discriminate|].
  intros [= <- <-]. split; reflexivity.
Qed.

Lemma lookup_spread_absent (target : record) (source : obj) (f : string) :
  source !! f = None -> spread target (FJson <$> source) !! f = target !! f.
Proof.
  intros Hf. unfold spread. apply lookup_union_r. by rewrite lookup_fmap, Hf.
Qed.

Lemma lookup_spread_present (target : record) (source : obj) (f : string) v :
  source !! f = Some v ->
  spread target (FJson <$> source) !! f = Some (FJson v).
Proof.
  intros Hf. unfold spread. apply lookup_union_Some_l.
  by rewrite lookup_fmap, Hf.
Qed.

(** X26: an accepted update leaves every property that the patch does not
    name as it was, except [updatedAt], which becomes the current time; so
    [id] and [createdAt] are unchanged under every patch that does not name
    them; and the empty patch is accepted and changes [updatedAt] only. *)
Theorem X26_update_frame
    (now : Z) (id : option jsval) (d : Store) (u : record) :
  isConnected d = true ->
  Map_get (of_json id) (users d) = Some u ->
  (forall updateData u' d',
      Database.updateUser now id updateData d = (Resolved u', d') ->
      (forall f, updateData !! f = None -> f <> "updatedAt" ->
                 u' !! f = u !! f)
      /\ u' !! "updatedAt" = Some (FDate now)
      /\ (updateData !! "id" = None -> u' !! "id" = u !! "id")
      /\ (updateData !! "createdAt" = None ->
          u' !! "createdAt" = u !! "createdAt")
      /\ Map_get (of_json id) (users d') = Some u')
  /\ Database.updateUser now id ∅ d
     = (Resolved (<["updatedAt" := FDate now]> u),
        {| users := Map_set (of_json id) (<["updatedAt" := FDate now]> u)
                      (users d);
           isConnected := true |}).
Proof.
  intros Hc Hu. split.
  - intros updateData u' d' Hup.
    destruct (updateUser_resolved _ _ _ _ _ _ _ Hu Hup) as [Hu' ->].
    assert (Hframe : forall f, updateData !! f = None -> f <> "updatedAt" ->
                               u' !! f = u !! f).
    { intros f Hf Hne. rewrite Hu'. rewrite lookup_insert_ne by done.
      by apply lookup_spread_absent. }
    split; [exact Hframe|]. split; [rewrite Hu'; apply lookup_insert_eq|].
    split; [intros Hf; by apply Hframe|].
    split; [intros Hf; by apply Hframe|].
    simpl. apply Map_get_set_eq.
  - unfold Database.updateUser. rewrite Hc, Hu. simpl.
    rewrite lookup_empty. simpl. unfold spread.
    rewrite fmap_empty, (left_id_L ∅ (∪)). reflexivity.
Qed.

Lemma X26_update_frame_witness :
  exists u',
    (Database.updateUser 2000 Sample.john ∅ Sample.seeded).1 = Resolved u'
    /\ u' !! "updatedAt" = Some (FDate 2000)
    /\ u' !! "id" = Some (FJson (JStr "id-1"))
    /\ u' !! "createdAt" = Some (FDate date_2023_01_01).
Proof.
  destruct (X26_update_frame 2000 Sample.john Sample.seeded
              (default ∅ (Map_get (of_json Sample.john)
                            (users Sample.seeded))))
    as [_ Hempty]; [reflexivity|reflexivity|].
  eexists. rewrite Hempty. split; [reflexivity|].
  repeat split; vm_compute; reflexivity.
Defined.

(** C2: a patch that names [id] and [createdAt] rewrites both.  The patch
    [{id: 'id-9', createdAt: '1999-12-31'}] for the first seeded user
    passes [validateUpdateData], the store accepts it, the service
    succeeds and the handler answers 200; the record kept under the key
    'id-1' then has the [id] 'id-9' and the [createdAt] of the patch, and
    its other properties, [updatedAt] apart, are as before. *)
Theorem C2_patch_rewrites_id_and_createdAt :
  let db := mockDatabase "id-3" 1000 2000 in
  isValid (validateUpdateData Sample.rewritePatch) = true
  /\ exists u u' d',
       Map_get (of_json Sample.john) (users Sample.seeded) = Some u
       /\ Database.updateUser 2000 Sample.john Sample.rewritePatch
            Sample.seeded
          = (Resolved u', d')
       /\ @UserService.updateUser _ db Sample.john Sample.rewritePatch
            Sample.seeded
          = ({| success := true; data := Some (User u'); error := None;
                message := "User updated successfully" |}, d')
       /\ status (@UserController.updateUser _ db Sample.john
                    Sample.rewritePatch Sample.seeded).1 = 200
       /\ Map_get (of_json Sample.john) (users d') = Some u'
       /\ Map_has (Some (FJson (JStr "id-9"))) (users d') = false
       /\ u !! "id" = Some (FJson (JStr "id-1"))
       /\ u' !! "id" = Some (FJson (JStr "id-9"))
       /\ u !! "createdAt" = Some (FDate date_2023_01_01)
       /\ u' !! "createdAt" = Some (FJson (JStr "1999-12-31"))
       /\ u' !! "name" = u !! "name"
       /\ u' !! "email" = u !! "email"
       /\ u' !! "age" = u !! "age".
Proof.
  intros db. split; [vm_compute; reflexivity|].
  eexists _, _, _. split; [reflexivity|]. split; [reflexivity|].
  repeat split; vm_compute; reflexivity.
Qed.

(** ** Validation of names *)

Lemma isValidName_spec (name : option jsval) :
  Validator.isValidName name = true
  <-> exists s, name = Some (JStr s)
                /\ (2 <= String.length (trim s) <= 100)%nat.
Proof.
  unfold Validator.isValidName.
  destruct name as [[| b | q | s]|]; cbn [truthy is_string negb orb];
    rewrite ?orb_true_r;
    try (split; [discriminate | intros (s' & [=] & _)]).
  rewrite orb_false_r, negb_involutive.
  destruct (String.eqb_spec s "") as [->|Hs].
  - split; [discriminate|]. intros (s' & [= <-] & Hlen & _).
    simpl in Hlen. lia.
  - rewrite andb_true_iff, !Nat.leb_le. split.
    + intros Hlen. by exists s.
    + by intros (s' & [= <-] & Hlen).
Qed.

Lemma name_rejected_spec (name : option jsval) :
  name_rejected name = true
  <-> ~ exists s, name = Some (JStr s) /\ (2 <= String.length (trim s))%nat.
Proof.
  unfold name_rejected.
  destruct name as [[| b | q | s]|];
    cbn [truthy is_string negb orb trim_length];
    rewrite ?orb_true_r;
    try (split; [intros _ (s' & [=] & _) | done]).
  rewrite orb_false_r, negb_involutive.
  destruct (String.eqb_spec s "") as [->|Hs].
  - split; [|done]. intros _ (s' & [= <-] & Hlen). simpl in Hlen. lia.
  - cbn [orb]. rewrite Nat.ltb_lt. split.
    + intros Hlen (s' & [= <-] & Hlen'). lia.
    + intros Hno. destruct (decide (String.length (trim s) < 2)%nat); [done|].
      exfalso. apply Hno. exists s. split; [done|lia].
Qed.

Lemma nameError_pushed (userData : obj) :
  In nameError (errors (validateUserData userData))
  <-> name_rejected (userData !! "name") = true.
Proof.
  unfold validateUserData, push_if, nameError, emailError, ageError. simpl.
  destruct (name_rejected _), (email_rejected _), (age_rejected _); simpl;
    split; try done; auto;
    intros Hin; repeat destruct Hin as [Hin|Hin]; try discriminate Hin; done.
Qed.

Lemma isValid_false_iff (v : obj) :
  isValid (validateUserData v) = false <-> errors (validateUserData v) <> [].
Proof.
  unfold validateUserData. simpl.
  destruct (push_if _ _ (push_if _ _ (push_if _ _ _))); simpl; split;
    congruence.
Qed.

(** C3, amended: [Validator.isValidName] accepts exactly the strings whose
    trimmed length is between 2 and 100; the name check of creation
    validation has the lower bound only: [validateUserData] reports the name
    error exactly when the name is not a string of trimmed length at least
    2, and creation then fails with the validation-failed envelope without
    touching the database. *)
Theorem C3_name_checks :
  (forall name : option jsval,
      Validator.isValidName name = true
      <-> exists s, name = Some (JStr s)
                    /\ (2 <= String.length (trim s) <= 100)%nat)
  /\ (forall userData : obj,
         In nameError (errors (validateUserData userData))
         <-> ~ exists s, userData !! "name" = Some (JStr s)
                         /\ (2 <= String.length (trim s))%nat)
  /\ (forall (S : Type) (API : DatabaseAPI S) (userData : obj) (s : S),
         In nameError (errors (validateUserData userData)) ->
         UserService.createUser userData s
         = (failure (join ", " (errors (validateUserData userData)))
              "Validation failed", s)).
Proof.
  split; [exact isValidName_spec|]. split.
  - intros userData. rewrite nameError_pushed. apply name_rejected_spec.
  - intros S API userData s Hin.
    assert (Hv : isValid (validateUserData userData) = false).
    { apply isValid_false_iff. intros Hnil. rewrite Hnil in Hin. done. }
    unfold UserService.createUser, try_catch, ret. by rewrite Hv.
Qed.

Lemma C3_name_checks_witness :
  In nameError (errors (validateUserData {["name" := JStr " A "]}))
  /\ (@UserService.createUser _ Sample.recorder {["name" := JStr " A "]} []).2
     = [].
Proof.
  assert (Hin : In nameError
                  (errors (validateUserData {["name" := JStr " A "]}))).
  { vm_compute. left. reflexivity. }
  split; [exact Hin|].
  rewrite (proj2 (proj2 C3_name_checks) _ Sample.recorder
             {["name" := JStr " A "]} [] Hin).
  reflexivity.
Defined.

(** C3 as stated fails: a name of 101 characters is refused by
    [Validator.isValidName] but passes creation validation, and the user is
    created. *)
Lemma C3_long_name_is_accepted :
  String.length (trim Sample.longName) = 101%nat
  /\ Validator.isValidName (Some (JStr Sample.longName)) = false
  /\ validateUserData Sample.longNamed = {| isValid := true; errors := [] |}
  /\ success (@UserService.createUser _ (mockDatabase "id-3" 1000 1001)
                Sample.longNamed Sample.seeded).1 = true.
Proof. repeat split; vm_compute; reflexivity. Qed.

(** ** The shape of envelopes *)

Ltac run_service :=
  unfold getAllUsers, getUserById, UserService.createUser,
    UserService.updateUser, UserService.deleteUser, getUserStats, try_catch,
    await, ret, failure, error_iff_failure, data_on_success in *;
  repeat case_match; simplify_eq/=; eauto.

(** C4, amended: in the envelope of every service operation on every input,
    [error] is present exactly when [success] is false, and a failure has
    no [data]; a success has [data], except for [UserService.deleteUser], whose
    envelope never has [data]: its success envelope has neither property. *)
Theorem C4_envelope_shape
    {S : Type} {API : DatabaseAPI S} (s : S)
    (id : option jsval) (userData updateData : obj) :
  (error_iff_failure (getAllUsers s).1 /\ data_on_success (getAllUsers s).1)
  /\ (error_iff_failure (getUserById id s).1
      /\ data_on_success (getUserById id s).1)
  /\ (error_iff_failure (UserService.createUser userData s).1
      /\ data_on_success (UserService.createUser userData s).1)
  /\ (error_iff_failure (UserService.updateUser id updateData s).1
      /\ data_on_success (UserService.updateUser id updateData s).1)
  /\ (error_iff_failure (getUserStats s).1
      /\ data_on_success (getUserStats s).1)
  /\ (error_iff_failure (UserService.deleteUser id s).1
      /\ data (UserService.deleteUser id s).1 = None).
Proof.
  repeat split; run_service; try discriminate.
Qed.

(** C4 as stated fails: deleting a stored user succeeds with an
    envelope that has neither [data] nor [error]. *)
Lemma C4_delete_success_has_no_data :
  let e := (@UserService.deleteUser _ (mockDatabase "id-3" 1000 1001)
              Sample.john Sample.seeded).1 in
  success e = true /\ data e = None /\ error e = None
  /\ message e = "User deleted successfully".
Proof. repeat split. Qed.

(** ** Update: validation comes first *)

Lemma leb_le (x y : Qc) : leb x y = true <-> (x <= y)%Qc.
Proof. unfold leb, Qcle. apply Qle_bool_iff. Qed.

Lemma ltb_false_le (x y : Qc) : ltb x y = false <-> (y <= x)%Qc.
Proof. unfold ltb. rewrite negb_false_iff. apply leb_le. Qed.

Lemma age_out_of_range_spec (age : option jsval) :
  age_out_of_range age = false <-> valid_age age.
Proof.
  unfold valid_age.
  destruct age as [[| b | q | s]|]; simpl;
    try (split; [discriminate | intros (q' & [=] & _)]).
  rewrite orb_false_iff, !ltb_false_le. split.
  - intros [H0 H150]. by exists q.
  - by intros (q' & [= <-] & H0 & H150).
Qed.

Lemma name_update_rejected_spec (name : option jsval) :
  name_update_rejected name = true <-> is_Some name /\ ~ valid_name name.
Proof.
  unfold valid_name.
  destruct name as [[| b | q | s]|]; simpl;
    try (split; [intros _; split; [by eexists|]; intros (s' & [=] & _)
                | done]).
  - rewrite Nat.ltb_lt. split.
    + intros Hlen. split; [by eexists|]. intros (s' & [= <-] & Hlen'). lia.
    + intros [_ Hno]. destruct (decide (String.length (trim s) < 2)%nat);
        [done|]. exfalso. apply Hno. exists s. split; [done|lia].
  - split; [discriminate|]. by intros [[? [=]] _].
Qed.

Lemma email_update_rejected_spec (email : option jsval) :
  email_update_rejected email = true
  <-> is_Some email /\ isValidEmail email = false.
Proof.
  destruct email as [email|]; simpl.
  - rewrite negb_true_iff. split; [intros He; split; [by eexists|done]|].
    by intros [_ He].
  - split; [discriminate|]. by intros [[? [=]] _].
Qed.

Lemma age_update_rejected_spec (age : option jsval) :
  age_update_rejected age = true <-> is_Some age /\ ~ valid_age age.
Proof.
  pose proof (age_out_of_range_spec age) as Hage.
  destruct age as [age|]; unfold age_update_rejected.
  - split.
    + intros Hr. split; [by eexists|]. intros Hv. apply Hage in Hv.
      congruence.
    + intros [_ Hv]. destruct (age_out_of_range (Some age)); [done|].
      exfalso. by apply Hv, Hage.
  - split; [discriminate|]. by intros [[? [=]] _].
Qed.

Lemma isValid_push_if c1 c2 c3 e1 e2 e3 :
  (length (push_if c3 e3 (push_if c2 e2 (push_if c1 e1 []))) =? 0)%nat
  = negb (c1 || c2 || c3).
Proof. by destruct c1, c2, c3. Qed.

Lemma validateUpdateData_invalid (updateData : obj) :
  isValid (validateUpdateData updateData) = false
  <-> present_but_invalid updateData.
Proof.
  unfold validateUpdateData, present_but_invalid. simpl.
  rewrite isValid_push_if, negb_false_iff, !orb_true_iff.
  rewrite name_update_rejected_spec, email_update_rejected_spec,
    age_update_rejected_spec.
  tauto.
Qed.

(** C6, amended: for a truthy id, a patch with a property that is present
    and that [validateUpdateData] refuses (a name that is not a string of
    trimmed length at least 2, with no upper bound; an email that
    [isValidEmail] refuses; an age that is not a number, or is below 0 or
    above 150) makes [UserService.updateUser] return the validation-failed
    envelope; this holds for every injected database and leaves its state
    untouched, so none of its methods is called.  The not-found envelope
    is returned only for a patch that passes validation. *)
Theorem C6_update_validates_before_lookup
    {S : Type} {API : DatabaseAPI S}
    (id : option jsval) (updateData : obj) (s : S) :
  truthy id = true ->
  (present_but_invalid updateData ->
   errors (validateUpdateData updateData) <> []
   /\ UserService.updateUser id updateData s
      = (failure (join ", " (errors (validateUpdateData updateData)))
           "Validation failed", s))
  /\ ((UserService.updateUser id updateData s).1 = notFound ->
      ~ present_but_invalid updateData).
Proof.
  intros Hid.
  assert (Hfail : present_but_invalid updateData ->
    errors (validateUpdateData updateData) <> []
    /\ UserService.updateUser id updateData s
       = (failure (join ", " (errors (validateUpdateData updateData)))
            "Validation failed", s)).
  { intros Hbad. apply validateUpdateData_invalid in Hbad as Hv. split.
    - intros Hnil. unfold validateUpdateData in Hv, Hnil. simpl in Hv, Hnil.
      by rewrite Hnil in Hv.
    - unfold UserService.updateUser, try_catch, ret. by rewrite Hid, Hv. }
  split; [exact Hfail|].
  intros Hnf Hbad. destruct (Hfail Hbad) as [_ Heq].
  rewrite Heq in Hnf. discriminate Hnf.
Qed.

Lemma C6_update_validates_before_lookup_witness :
  truthy (Some (JStr "no-such-id")) = true
  /\ present_but_invalid Sample.agePatch
  /\ @UserService.updateUser _ Sample.recorder (Some (JStr "no-such-id"))
       Sample.agePatch []
     = (failure "Age must be a number between 0 and 150" "Validation failed",
        []).
Proof.
  assert (Hbad : present_but_invalid Sample.agePatch).
  { right; right. split; [by eexists|].
    intros (q & [= <-] & _ & Hle). vm_compute in Hle. by apply Hle. }
  split; [reflexivity|]. split; [exact Hbad|].
  destruct (C6_update_validates_before_lookup (API := Sample.recorder)
              (Some (JStr "no-such-id")) Sample.agePatch [] eq_refl)
    as [Hfail _].
  destruct (Hfail Hbad) as [_ ->]. reflexivity.
Defined.

(** C6 as stated fails: a name of 101 characters is outside the range of
    2 to 100 characters, and [Validator.isValidName] refuses it, but
    [validateUpdateData] has no upper bound and reports no error.  For a
    patch with that name and an id that is not stored, the service calls
    [findUserById] and answers with the not-found envelope. *)
Lemma C6_long_name_reaches_the_store :
  Sample.longNamePatch !! "name" = Some (JStr Sample.longName)
  /\ String.length (trim Sample.longName) = 101%nat
  /\ Validator.isValidName (Sample.longNamePatch !! "name") = false
  /\ errors (validateUpdateData Sample.longNamePatch) = []
  /\ @UserService.updateUser _ Sample.recorder (Some (JStr "no-such-id"))
       Sample.longNamePatch []
     = (notFound, ["findUserById"])
  /\ @UserService.updateUser _ (mockDatabase "id-3" 1000 2000)
       (Some (JStr "no-such-id")) Sample.longNamePatch Sample.seeded
     = (notFound, Sample.seeded).
Proof. repeat split; vm_compute; reflexivity. Qed.

(** ** The status code of an update *)

Lemma find_is_Some {A} (f : A -> bool) (l : list A) (x : A) :
  In x l -> f x = true -> is_Some (List.find f l).
Proof.
  intros Hin Hf. destruct (List.find f l) eqn:E; [by eexists|].
  pose proof (find_none f l E x Hin). congruence.
Qed.

Lemma findUserById_connected (id : option jsval) (d : Store) :
  isConnected d = true ->
  findUserById id d = (Resolved (Map_get (of_json id) (users d)), d).
Proof. intros Hc. unfold findUserById. by rewrite Hc. Qed.

Lemma updateUser_duplicate_email
    (now : Z) (id : option jsval) (updateData : obj) (d : Store)
    (user other : record) :
  isConnected d = true ->
  Map_get (of_json id) (users d) = Some user ->
  truthy (updateData !! "email") = true ->
  user !! "email" <> of_json (updateData !! "email") ->
  In other (Map_values (users d)) ->
  other !! "email" = of_json (updateData !! "email") ->
  Database.updateUser now id updateData d
  = (Rejected "User with this email already exists", d).
Proof.
  intros Hc Hu Hemail Hne Hin Hother.
  unfold Database.updateUser. rewrite Hc, Hu, Hemail. cbn [negb andb].
  assert (Hself : strict_eq (user !! "email") (updateData !! "email") = false)
    by (by apply bool_decide_eq_false_2).
  rewrite Hself. cbn [negb].
  destruct (find_is_Some
              (fun u : record => strict_eq (u !! "email")
                                   (updateData !! "email"))
              (Map_values (users d)) other Hin) as [u' ->]; [|reflexivity].
  by apply bool_decide_eq_true_2.
Qed.

Lemma updateUser_response_codes (result : Envelope) :
  success result = false ->
  let r := updateUser_response result in
  (status r = 404 <-> error result = Some "User not found")
  /\ (status r = 409
      <-> error result = Some "User with this email already exists")
  /\ (status r = 400
      <-> error result <> Some "User not found"
          /\ error result <> Some "User with this email already exists")
  /\ json r = {| success := false; data := None; error := error result;
                 message := message result |}.
Proof.
  intros Hf. unfold updateUser_response. rewrite Hf.
  cbn [status json].
  destruct (decide (error result = Some "User not found")) as [E1|E1].
  - rewrite (bool_decide_eq_true_2 _ E1).
    repeat split; try done; try (rewrite E1; discriminate).
    by intros [? _].
  - rewrite (bool_decide_eq_false_2 _ E1).
    destruct (decide (error result
                      = Some "User with this email already exists"))
      as [E2|E2].
    + rewrite (bool_decide_eq_true_2 _ E2).
      repeat split; try done. by intros [_ ?].
    + rewrite (bool_decide_eq_false_2 _ E2). repeat split; done.
Qed.

(** C7: whatever database is injected, when the service's [updateUser]
    returns a failure envelope the update handler answers 404 exactly for
    the error text 'User not found', 409 exactly for 'User with this email
    already exists', and 400 otherwise, with the envelope's error and
    message in the body.  When the store rejects an update for a duplicate
    email, the service catches it with the message 'Failed to update user'
    and the store's error text, and the handler answers 409. *)
Theorem C7_update_status_codes :
  (forall (S : Type) (API : DatabaseAPI S) (id : option jsval)
        (updateData : obj) (s : S),
      let result := (UserService.updateUser id updateData s).1 in
      let r := (UserController.updateUser id updateData s).1 in
      (UserController.updateUser id updateData s).2
      = (UserService.updateUser id updateData s).2
      /\ (success result = false ->
          (status r = 404 <-> error result = Some "User not found")
          /\ (status r = 409
              <-> error result = Some "User with this email already exists")
          /\ (status r = 400
              <-> error result <> Some "User not found"
                  /\ error result
                     <> Some "User with this email already exists")
          /\ json r = {| success := false; data := None;
                         error := error result;
                         message := message result |}))
  /\ (forall result : Envelope,
      success result = false ->
      let r := updateUser_response result in
      (status r = 404 <-> error result = Some "User not found")
      /\ (status r = 409
          <-> error result = Some "User with this email already exists")
      /\ (status r = 400
          <-> error result <> Some "User not found"
              /\ error result <> Some "User with this email already exists")
      /\ json r = {| success := false; data := None; error := error result;
                     message := message result |})
  /\ (forall (uuid : string) (createdNow now : Z) (id : option jsval)
        (updateData : obj) (d : Store) (user other : record),
         isConnected d = true ->
         truthy id = true ->
         isValid (validateUpdateData updateData) = true ->
         Map_get (of_json id) (users d) = Some user ->
         truthy (updateData !! "email") = true ->
         user !! "email" <> of_json (updateData !! "email") ->
         In other (Map_values (users d)) ->
         other !! "email" = of_json (updateData !! "email") ->
         @UserService.updateUser _ (mockDatabase uuid createdNow now)
           id updateData d
         = (failure "User with this email already exists"
              "Failed to update user", d)
         /\ status (@UserController.updateUser _
                      (mockDatabase uuid createdNow now) id updateData d).1
            = 409).
Proof.
  split; [|split].
  - intros S API id updateData s. unfold UserController.updateUser.
    destruct (UserService.updateUser id updateData s) as [result s'].
    cbn [fst snd]. split; [reflexivity|].
    apply updateUser_response_codes.
  - apply updateUser_response_codes.
  - intros uuid createdNow now id updateData d user other
      Hc Hid Hv Hu Hemail Hne Hin Hother.
    assert (Hsvc : @UserService.updateUser _ (mockDatabase uuid createdNow now)
                     id updateData d
                   = (failure "User with this email already exists"
                        "Failed to update user", d)).
    { unfold UserService.updateUser, try_catch, await, ret. rewrite Hid, Hv.
      cbn [negb db_findUserById db_updateUser mockDatabase].
      rewrite (findUserById_connected _ _ Hc), Hu.
      by rewrite (updateUser_duplicate_email now id updateData d user other). }
    split; [exact Hsvc|].
    unfold UserController.updateUser. rewrite Hsvc. reflexivity.
Qed.

Lemma C7_update_status_codes_witness :
  @UserService.updateUser _ (mockDatabase "id-3" 1000 2000)
    Sample.john Sample.emailPatch Sample.seeded
  = (failure "User with this email already exists" "Failed to update user",
     Sample.seeded)
  /\ status (@UserController.updateUser _ (mockDatabase "id-3" 1000 2000)
               Sample.john Sample.emailPatch Sample.seeded).1 = 409.
Proof.
  apply (proj2 (proj2 C7_update_status_codes) "id-3" 1000 2000 Sample.john
           Sample.emailPatch Sample.seeded
           (default ∅ (Map_get (of_json Sample.john) (users Sample.seeded)))
           (default ∅ (Map_get (of_json Sample.jane) (users Sample.seeded))));
    try reflexivity.
  - vm_compute. discriminate.
  - apply (Map_get_In (of_json Sample.jane)). reflexivity.
Defined.

(** ** Statistics *)

Lemma ages_of_length users ages :
  ages_of users ages -> length users = length ages.
Proof.
  unfold ages_of. intros H. apply (f_equal length) in H.
  by rewrite !length_map in H.
Qed.

Lemma ages_of_operands users ages :
  ages_of users ages ->
  map (fun user : record => operand (user !! "age")) users = map Some ages.
Proof.
  unfold ages_of. revert ages.
  induction users as [|u users IH]; intros [|q ages]; simpl; try done.
  intros [= Hu Hrest]. rewrite Hu. simpl. f_equal. by apply IH.
Qed.

Lemma fold_add_ages users ages (a : number) :
  ages_of users ages ->
  fold_left (fun sum (user : record) => add sum (operand (user !! "age")))
    users a
  = fold_left add (map Some ages) a.
Proof.
  unfold ages_of. revert ages a.
  induction users as [|u users IH]; intros [|q ages] a; simpl; try done.
  intros [= Hu Hrest]. rewrite Hu. simpl. by apply IH.
Qed.

Lemma leb_total (x y : Qc) : leb x y = false -> (y <= x)%Qc.
Proof.
  intros Hxy. apply Qclt_le_weak, Qcnot_le_lt. intros Hle.
  apply leb_le in Hle. congruence.
Qed.

Lemma Math_min_spec (x : Qc) (l : list Qc) :
  exists m, fold_left min2 (map Some l) (Some x) = Some m
            /\ is_minimum m (x :: l).
Proof.
  revert x. induction l as [|y l IH]; intros x; simpl.
  - exists x. split; [done|]. split; [by left|].
    intros q [<-|[]]. apply Qcle_refl.
  - destruct (IH (if leb x y then x else y)) as (m & Hm & Hin & Hle).
    exists m. split; [exact Hm|].
    assert (Hz : ((if leb x y then x else y) <= x
                  /\ (if leb x y then x else y) <= y)%Qc).
    { destruct (leb x y) eqn:E.
      - split; [apply Qcle_refl|by apply leb_le].
      - split; [by apply leb_total|apply Qcle_refl]. }
    pose proof (Hle _ (or_introl eq_refl)) as Hmz.
    split.
    + destruct Hin as [<-|Hin]; [|by right; right].
      destruct (leb x y); [by left|by right; left].
    + intros q [<-|[<-|Hq]].
      * eapply Qcle_trans; [exact Hmz|apply Hz].
      * eapply Qcle_trans; [exact Hmz|apply Hz].
      * apply Hle. by right.
Qed.

Lemma Math_max_spec (x : Qc) (l : list Qc) :
  exists m, fold_left max2 (map Some l) (Some x) = Some m
            /\ is_maximum m (x :: l).
Proof.
  revert x. induction l as [|y l IH]; intros x; simpl.
  - exists x. split; [done|]. split; [by left|].
    intros q [<-|[]]. apply Qcle_refl.
  - destruct (IH (if leb x y then y else x)) as (m & Hm & Hin & Hle).
    exists m. split; [exact Hm|].
    assert (Hz : (x <= (if leb x y then y else x)
                  /\ y <= (if leb x y then y else x))%Qc).
    { destruct (leb x y) eqn:E.
      - split; [by apply leb_le|apply Qcle_refl].
      - split; [apply Qcle_refl|by apply leb_total]. }
    pose proof (Hle _ (or_introl eq_refl)) as Hmz.
    split.
    + destruct Hin as [<-|Hin]; [|by right; right].
      destruct (leb x y); [by right; left|by left].
    + intros q [<-|[<-|Hq]].
      * eapply Qcle_trans; [apply Hz|exact Hmz].
      * eapply Qcle_trans; [apply Hz|exact Hmz].
      * apply Hle. by right.
Qed.

(** What [getUserStats] computes from a listing. *)
Lemma getUserStats_resolved
    {S : Type} {API : DatabaseAPI S} (s s' : S) (users : list record)
    (ages : list Qc) :
  db_findAllUsers s = (Resolved users, s') ->
  ages_of users ages ->
  getUserStats s
  = ({| success := true;
        data := Some (Stats
          {| totalUsers := length ages;
             averageAge :=
               if (0 <? length ages)%nat then rounded_mean ages
               else Some (num 0);
             youngestUser :=
               if (0 <? length ages)%nat then Math_min (map Some ages)
               else Some (num 0);
             oldestUser :=
               if (0 <? length ages)%nat then Math_max (map Some ages)
               else Some (num 0) |});
        error := None;
        message := "User statistics retrieved successfully" |}, s').
Proof.
  intros Hfind Hages. unfold getUserStats, try_catch, await, ret.
  rewrite Hfind. rewrite (fold_add_ages _ _ _ Hages).
  by rewrite (ages_of_operands _ _ Hages), (ages_of_length _ _ Hages).
Qed.

(** C9, amended: on a listing of users whose ages are numbers,
    [getUserStats] succeeds; [totalUsers] is the number of users,
    [youngestUser] the least and [oldestUser] the greatest age, and
    [averageAge] the sum of the ages divided by their number as binary64
    arithmetic computes them, adding from the left and rounding every
    addition and the division; the three are 0 when there is no user.
    For the ages 30, 25 and 35 the statistics are 3, 30, 25 and 35. *)
Theorem C9_user_stats
    {S : Type} {API : DatabaseAPI S} (s s' : S) (users : list record)
    (ages : list Qc) :
  db_findAllUsers s = (Resolved users, s') ->
  ages_of users ages ->
  exists st : stats,
    getUserStats s
    = ({| success := true; data := Some (Stats st); error := None;
          message := "User statistics retrieved successfully" |}, s')
    /\ totalUsers st = length users
    /\ match ages with
       | [] => averageAge st = Some (num 0)
               /\ youngestUser st = Some (num 0)
               /\ oldestUser st = Some (num 0)
       | _ :: _ =>
           averageAge st = rounded_mean ages
           /\ (exists lo, youngestUser st = Some lo /\ is_minimum lo ages)
           /\ (exists hi, oldestUser st = Some hi /\ is_maximum hi ages)
       end
    /\ (ages = [num 30; num 25; num 35] ->
        st = {| totalUsers := 3; averageAge := Some (num 30);
                youngestUser := Some (num 25);
                oldestUser := Some (num 35) |}).
Proof.
  intros Hfind Hages. eexists. split.
  { apply (getUserStats_resolved s s' users ages Hfind Hages). }
  split; [by rewrite (ages_of_length _ _ Hages)|]. split.
  - destruct ages as [|q ages]; simpl; [done|]. split; [done|].
    split; [apply Math_min_spec|apply Math_max_spec].
  - intros ->. vm_compute. f_equal. f_equal.
    apply Qc_is_canon. reflexivity.
Qed.

Lemma C9_user_stats_witness :
  (@getUserStats _ (Sample.listing Sample.threeUsers) tt).1
  = {| success := true;
       data := Some (Stats {| totalUsers := 3; averageAge := Some (num 30);
                              youngestUser := Some (num 25);
                              oldestUser := Some (num 35) |});
       error := None;
       message := "User statistics retrieved successfully" |}.
Proof.
  destruct (C9_user_stats (API := Sample.listing Sample.threeUsers) tt tt
              Sample.threeUsers [num 30; num 25; num 35]
              eq_refl eq_refl)
    as (st & -> & _ & _ & Hst).
  by rewrite (Hst eq_refl).
Defined.

(** C9 as stated fails: for the ages 30, 25 and 36 the arithmetic mean is
    91/3, which no double equals; [averageAge] is
    8538074293556565 / 2^48, printed as 30.333333333333332. *)
Lemma C9_average_is_rounded :
  exists st : stats,
    (@getUserStats _ (Sample.listing Sample.thirdsUsers) tt).1
    = {| success := true; data := Some (Stats st); error := None;
         message := "User statistics retrieved successfully" |}
    /\ ages_of Sample.thirdsUsers [num 30; num 25; num 36]
    /\ mean [num 30; num 25; num 36] = Q2Qc (91 # 3)
    /\ averageAge st = Some (Q2Qc (8538074293556565 # 281474976710656))
    /\ averageAge st <> Some (mean [num 30; num 25; num 36]).
Proof.
  assert (Hst : (@getUserStats _ (Sample.listing Sample.thirdsUsers) tt).1
    = {| success := true;
         data := Some (Stats
           {| totalUsers := 3;
              averageAge :=
                Some (Q2Qc (8538074293556565 # 281474976710656));
              youngestUser := Some (num 25);
              oldestUser := Some (num 36) |});
         error := None;
         message := "User statistics retrieved successfully" |}).
  { vm_compute. reflexivity. }
  eexists. split; [exact Hst|]. split; [reflexivity|].
  split; [by apply Qc_is_canon|]. split; [reflexivity|].
  cbn [averageAge]. intros [= H].
Qed.

(** ** Uniqueness of emails *)

Lemma find_email_None (e : option jsval) (m : Map) :
  List.find (fun u : record => strict_eq (u !! "email") e) (Map_values m)
  = None ->
  ~ In (of_json e) (Map_emails m).
Proof.
  intros Hfind Hin. unfold Map_emails in Hin.
  apply in_map_iff in Hin as (u & Hu & Hin).
  pose proof (find_none _ _ Hfind u Hin) as Hneq. simpl in Hneq.
  apply bool_decide_eq_false_1 in Hneq. by apply Hneq.
Qed.

Lemma In_Map_emails_set x k v m :
  In x (Map_emails (Map_set k v m)) ->
  x = v !! "email" \/ In x (Map_emails m).
Proof.
  unfold Map_emails.
  induction m as [|[k' v'] m IH]; simpl.
  - intros [<-|[]]. by left.
  - destruct (decide (k' = k)); simpl.
    + intros [<-|Hin]; [by left|by right; right].
    + intros [<-|Hin]; [by right; left|].
      destruct (IH Hin); [by left|by right; right].
Qed.

Lemma Map_set_emails_fresh k v m :
  ~ In (v !! "email") (Map_emails m) ->
  List.NoDup (Map_emails m) ->
  List.NoDup (Map_emails (Map_set k v m)).
Proof.
  unfold Map_emails.
  induction m as [|[k' v'] m IH]; simpl; intros Hfresh Hnd.
  - constructor; [by intros []|constructor].
  - apply List.NoDup_cons_iff in Hnd as [Hv' Hnd].
    destruct (decide (k' = k)); simpl.
    + constructor; [|done]. intros Hin. apply Hfresh. by right.
    + constructor.
      * intros Hin. apply In_Map_emails_set in Hin as [Heq|Hin]; [|done].
        apply Hfresh. by left.
      * apply IH; [|done]. intros Hin. apply Hfresh. by right.
Qed.

Lemma Map_set_emails_same k u v m :
  Map_get k m = Some u ->
  v !! "email" = u !! "email" ->
  Map_emails (Map_set k v m) = Map_emails m.
Proof.
  unfold Map_emails. intros Hget Heq.
  induction m as [|[k' v'] m IH]; simpl in *; [discriminate|].
  destruct (decide (k' = k)); simpl.
  - injection Hget as ->. by rewrite Heq.
  - f_equal. by apply IH.
Qed.

Lemma Map_delete_emails k m :
  List.NoDup (Map_emails m) -> List.NoDup (Map_emails (Map_delete k m)).
Proof.
  unfold Map_emails.
  induction m as [|[k' v'] m IH]; simpl; intros Hnd; [done|].
  apply List.NoDup_cons_iff in Hnd as [Hv' Hnd].
  destruct (decide (k' = k)); simpl; [done|].
  constructor; [|by apply IH].
  intros Hin. apply Hv'. clear -Hin.
  induction m as [|[k0 v0] m IHm]; simpl in *; [done|].
  destruct (decide (k0 = k)); simpl in *; [by right|].
  destruct Hin as [<-|Hin]; [by left|right; by apply IHm].
Qed.

Lemma lookup_email_spread (target : record) (source : obj) :
  spread target (FJson <$> source) !! "email"
  = match source !! "email" with
    | Some e => Some (FJson e)
    | None => target !! "email"
    end.
Proof.
  destruct (source !! "email") eqn:E.
  - by apply lookup_spread_present.
  - by apply lookup_spread_absent.
Qed.

Lemma createUser_emails uuid createdNow updatedNow userData d :
  List.NoDup (emails d) ->
  List.NoDup
    (emails (Database.createUser uuid createdNow updatedNow userData d).2).
Proof.
  intros Hnd. unfold Database.createUser, notConnected.
  destruct (isConnected d); simpl; [|done].
  destruct (List.find _ _) eqn:Hfind; simpl; [done|].
  apply Map_set_emails_fresh; [|done].
  rewrite !lookup_insert_ne, lookup_email_spread by done.
  apply find_email_None in Hfind.
  destruct (userData !! "email"); [done|].
  by rewrite lookup_singleton_ne.
Qed.

Lemma updateUser_emails now id updateData d :
  email_patch_truthy (Update now id updateData) = true ->
  List.NoDup (emails d) ->
  List.NoDup (emails (Database.updateUser now id updateData d).2).
Proof.
  intros Hok Hnd. unfold Database.updateUser, notConnected.
  destruct (isConnected d); simpl; [|done].
  destruct (Map_get (of_json id) (users d)) as [user|] eqn:Hu; simpl; [|done].
  unfold email_patch_truthy in Hok.
  destruct (updateData !! "email") as [e|] eqn:He.
  - change (truthy (Some e) = true) in Hok. rewrite Hok. cbn [andb].
    destruct (strict_eq (user !! "email") (Some e)) eqn:Hself; cbn [negb].
    + apply bool_decide_eq_true_1 in Hself. unfold emails. cbn [snd users].
      rewrite (Map_set_emails_same _ user); [done|done|].
      by rewrite lookup_insert_ne, lookup_email_spread, He, Hself.
    + destruct (List.find _ _) eqn:Hfind; simpl; [done|].
      apply Map_set_emails_fresh; [|done].
      rewrite lookup_insert_ne, lookup_email_spread, He by done.
      by apply find_email_None in Hfind.
  - unfold emails. cbn [truthy andb snd users].
    rewrite (Map_set_emails_same _ user); [done|done|].
    by rewrite lookup_insert_ne, lookup_email_spread, He.
Qed.

Lemma perform_emails (o : operation) (d : Store) :
  email_patch_truthy o = true ->
  List.NoDup (emails d) ->
  List.NoDup (emails (perform d o)).
Proof.
  intros Hok Hnd. destruct o; simpl perform.
  - done.
  - done.
  - by apply createUser_emails.
  - by apply updateUser_emails.
  - unfold Database.deleteUser, notConnected.
    destruct (isConnected d); simpl; [|done].
    destruct (Map_has _ _); simpl; [|done].
    by apply Map_delete_emails.
  - unfold Database.clearAllData, notConnected.
    destruct (isConnected d); simpl; [|done]. constructor.
Qed.

Lemma new_emails (uuid1 uuid2 : string) : List.NoDup (emails (new uuid1 uuid2)).
Proof.
  unfold new, seedData, emails, sampleUsers. cbn [users fold_left].
  apply Map_set_emails_fresh.
  - intros Hin. apply In_Map_emails_set in Hin as [Heq|[]].
    vm_compute in Heq. discriminate Heq.
  - apply Map_set_emails_fresh; [by intros []|constructor].
Qed.

Lemma run_emails (uuid1 uuid2 : string) (ops : list operation) :
  forallb email_patch_truthy ops = true ->
  List.NoDup (emails (run uuid1 uuid2 ops)).
Proof.
  unfold run. generalize (new_emails uuid1 uuid2).
  generalize (new uuid1 uuid2).
  induction ops as [|o ops IH]; intros d Hnd Hok; simpl in *; [done|].
  apply andb_true_iff in Hok as [Ho Hok].
  apply IH; [|done]. by apply perform_emails.
Qed.

Lemma string_emails_truthy (o : operation) :
  string_emails o = true -> email_patch_truthy o = true.
Proof.
  destruct o; try done. unfold string_emails, email_patch_truthy.
  by destruct (updateData !! "email") as [[| b | q | s]|].
Qed.

(** C5: the store's update checks a new email against the stored ones
    only when the email is truthy.  On the seeded store it accepts the
    patch [{email: ''}] for the first user and then for the second, and
    the two records have the same email.  Creation has no such guard: the
    store accepts creation data with the empty email once and refuses it
    the second time. *)
Theorem C5_empty_email_twice :
  (exists u1 d1 u2 d2,
      Database.updateUser 2000 Sample.john Sample.emptyEmailPatch
        Sample.seeded
      = (Resolved u1, d1)
      /\ Database.updateUser 2001 Sample.jane Sample.emptyEmailPatch d1
         = (Resolved u2, d2)
      /\ d2 = run "id-1" "id-2" Sample.emptyEmailRun
      /\ Map_get (of_json Sample.john) (users d2) = Some u1
      /\ Map_get (of_json Sample.jane) (users d2) = Some u2
      /\ u1 !! "email" = Some (FJson (JStr ""))
      /\ u2 !! "email" = Some (FJson (JStr "")))
  /\ emails (run "id-1" "id-2" Sample.emptyEmailRun)
     = [Some (FJson (JStr "")); Some (FJson (JStr ""))]
  /\ ~ List.NoDup (emails (run "id-1" "id-2" Sample.emptyEmailRun))
  /\ (exists u d,
         Database.createUser "id-3" 1000 1001 Sample.emptyEmailUser
           Sample.seeded
         = (Resolved u, d)
         /\ u !! "email" = Some (FJson (JStr ""))
         /\ Database.createUser "id-4" 1002 1003 Sample.emptyEmailUser d
            = (Rejected "User with this email already exists", d)).
Proof.
  assert (He : emails (run "id-1" "id-2" Sample.emptyEmailRun)
               = [Some (FJson (JStr "")); Some (FJson (JStr ""))])
    by (vm_compute; reflexivity).
  split.
  { eexists _, _, _, _. split; [reflexivity|]. split; [reflexivity|].
    repeat split; vm_compute; reflexivity. }
  split; [exact He|]. split.
  { rewrite He. intros Hnd.
    apply List.NoDup_cons_iff in Hnd as [Hin _]. apply Hin. by left. }
  eexists _, _. split; [reflexivity|].
  split; vm_compute; reflexivity.
Qed.

(** * Further properties *)

(** ** Regular expressions: [test] decides membership *)

Lemma append_nil_l (s : string) : "" ++ s = s.
Proof. reflexivity. Qed.

Lemma append_cons (c : ascii) (s t : string) :
  String c s ++ t = String c (s ++ t).
Proof. reflexivity. Qed.

Lemma append_nil_r (s : string) : s ++ "" = s.
Proof.
  induction s as [|c s IH]; [done|]. by rewrite append_cons, IH.
Qed.

Lemma append_eq_nil (s1 s2 : string) : s1 ++ s2 = "" -> s1 = "" /\ s2 = "".
Proof. destruct s1; [done|]. rewrite append_cons. discriminate. Qed.

Lemma append_assoc (s1 s2 s3 : string) : (s1 ++ s2) ++ s3 = s1 ++ s2 ++ s3.
Proof.
  induction s1 as [|c s1 IH]; [done|]. by rewrite !append_cons, IH.
Qed.

Lemma length_append (s1 s2 : string) :
  String.length (s1 ++ s2) = (String.length s1 + String.length s2)%nat.
Proof.
  induction s1 as [|c s1 IH]; [done|]. rewrite append_cons. simpl.
  by rewrite IH.
Qed.

Lemma nullable_matches (r : Regex.regex) :
  Regex.nullable r = true <-> Regex.matches r "".
Proof.
  split.
  - induction r; simpl; intros Hn; try discriminate.
    + constructor.
    + apply orb_true_iff in Hn as [Hn|Hn];
        [apply Regex.MAltL|apply Regex.MAltR]; auto.
    + apply andb_true_iff in Hn as [H1 H2].
      change "" with ("" ++ ""). constructor; auto.
    + constructor.
  - intros Hm. remember "" as s eqn:Hs.
    induction Hm; simpl; try done.
    + rewrite IHHm by done. done.
    + rewrite IHHm by done. apply orb_true_r.
    + apply append_eq_nil in Hs as [-> ->].
      by rewrite IHHm1, IHHm2.
Qed.

Lemma deriv_sound (r : Regex.regex) (c : ascii) (s : string) :
  Regex.matches (Regex.deriv c r) s -> Regex.matches r (String c s).
Proof.
  revert s. induction r; simpl; intros s Hm.
  - inversion Hm.
  - inversion Hm.
  - destruct (p c) eqn:Hp; inversion Hm; subst. by constructor.
  - inversion Hm; subst; [apply Regex.MAltL|apply Regex.MAltR]; auto.
  - assert (Hseq : forall s, Regex.matches (Regex.Seq (Regex.deriv c r1) r2) s
                             -> Regex.matches (Regex.Seq r1 r2) (String c s)).
    { intros s0 H0. inversion H0; subst.
      change (String c (s1 ++ s2)) with (String c s1 ++ s2).
      constructor; auto. }
    destruct (Regex.nullable r1) eqn:Hn; [|by apply Hseq].
    inversion Hm; subst; [by apply Hseq|].
    change (String c s) with ("" ++ String c s).
    constructor; [by apply nullable_matches|auto].
  - inversion Hm; subst.
    change (String c (s1 ++ s2)) with (String c s1 ++ s2).
    constructor; auto.
Qed.

Lemma deriv_complete (r : Regex.regex) (s0 : string) :
  Regex.matches r s0 ->
  forall c s, s0 = String c s -> Regex.matches (Regex.deriv c r) s.
Proof.
  induction 1 as [| p c0 Hp | r1 r2 s0 H IH | r1 r2 s0 H IH
                  | r1 r2 s1 s2 H1 IH1 H2 IH2 | r
                  | r s1 s2 H1 IH1 H2 IH2];
    intros c s Heq; simpl.
  - discriminate.
  - injection Heq as -> <-. rewrite Hp. constructor.
  - apply Regex.MAltL; auto.
  - apply Regex.MAltR; auto.
  - destruct s1 as [|c1 s1]; [rewrite append_nil_l in Heq
                             |rewrite append_cons in Heq].
    + subst s2. apply nullable_matches in H1. rewrite H1.
      apply Regex.MAltR; auto.
    + injection Heq as -> <-.
      assert (Hseq : Regex.matches (Regex.Seq (Regex.deriv c r1) r2)
                       (s1 ++ s2)) by (constructor; auto).
      destruct (Regex.nullable r1); [by apply Regex.MAltL|done].
  - discriminate.
  - destruct s1 as [|c1 s1]; [rewrite append_nil_l in Heq
                             |rewrite append_cons in Heq].
    + subst s2. by apply IH2.
    + injection Heq as -> <-. constructor; auto.
Qed.

Lemma test_matches (r : Regex.regex) (s : string) :
  Regex.test r s = true <-> Regex.matches r s.
Proof.
  revert r. induction s as [|c s IH]; intros r; simpl.
  - apply nullable_matches.
  - rewrite IH. split; [apply deriv_sound|].
    intros Hm. by apply (deriv_complete r (String c s)).
Qed.

(** ** The shape of a valid email *)

Lemma matches_class (p : ascii -> bool) (s : string) :
  Regex.matches (Regex.Class p) s <-> exists c, s = String c "" /\ p c = true.
Proof.
  split.
  - intros Hm. inversion Hm; subst. by eexists.
  - intros (c & -> & Hp). by constructor.
Qed.

Lemma matches_chr (c : ascii) (s : string) :
  Regex.matches (Regex.Chr c) s <-> s = String c "".
Proof.
  unfold Regex.Chr. rewrite matches_class. split.
  - intros (c' & -> & Hc). by apply Ascii.eqb_eq in Hc as ->.
  - intros ->. exists c. split; [done|]. apply Ascii.eqb_refl.
Qed.

Lemma matches_seq (r1 r2 : Regex.regex) (s : string) :
  Regex.matches (Regex.Seq r1 r2) s
  <-> exists s1 s2, s = s1 ++ s2 /\ Regex.matches r1 s1
                    /\ Regex.matches r2 s2.
Proof.
  split.
  - intros Hm. inversion Hm; subst. by eexists _, _.
  - intros (s1 & s2 & -> & H1 & H2). by constructor.
Qed.

Lemma matches_star_class (p : ascii -> bool) (s : string) :
  Regex.matches (Regex.Star (Regex.Class p)) s
  <-> Regex.all_chars p s = true.
Proof.
  split.
  - intros Hm. remember (Regex.Star (Regex.Class p)) as r eqn:Hr.
    induction Hm; try discriminate Hr; [done|].
    injection Hr as ->. apply matches_class in Hm1 as (c & -> & Hp).
    rewrite append_cons, append_nil_l. simpl. by rewrite Hp, IHHm2.
  - induction s as [|c s IH]; simpl; intros Hall; [constructor|].
    apply andb_true_iff in Hall as [Hp Hall].
    change (String c s) with (String c "" ++ s).
    constructor; [by constructor|auto].
Qed.

Lemma matches_plus_class (p : ascii -> bool) (s : string) :
  Regex.matches (Regex.Plus (Regex.Class p)) s
  <-> s <> "" /\ Regex.all_chars p s = true.
Proof.
  unfold Regex.Plus. rewrite matches_seq. split.
  - intros (s1 & s2 & -> & H1 & H2).
    apply matches_class in H1 as (c & -> & Hp).
    apply matches_star_class in H2.
    rewrite append_cons, append_nil_l. split; [done|]. simpl.
    by rewrite Hp, H2.
  - intros [Hne Hall]. destruct s as [|c s]; [done|]. simpl in Hall.
    apply andb_true_iff in Hall as [Hp Hall].
    exists (String c ""), s. split; [done|].
    split; [by constructor|by apply matches_star_class].
Qed.

Lemma matches_emailRegex (s : string) :
  Regex.matches Regex.emailRegex s
  <-> exists a b c, s = a ++ "@" ++ b ++ "." ++ c
                    /\ Regex.word a /\ Regex.word b /\ Regex.word c.
Proof.
  unfold Regex.emailRegex, Regex.notSpaceAt, Regex.word.
  change (fun c : ascii => negb (is_space c) && negb (Ascii.eqb c "@"))
    with Regex.not_space_at.
  split.
  - intros Hm.
    apply matches_seq in Hm as (a & s1 & -> & Ha & Hm).
    apply matches_seq in Hm as (at1 & s2 & -> & Hat & Hm).
    apply matches_seq in Hm as (b & s3 & -> & Hb & Hm).
    apply matches_seq in Hm as (dot & c & -> & Hdot & Hc).
    apply matches_chr in Hat as ->. apply matches_chr in Hdot as ->.
    apply matches_plus_class in Ha, Hb, Hc.
    by exists a, b, c.
  - intros (a & b & c & -> & Ha & Hb & Hc).
    apply matches_plus_class in Ha, Hb, Hc.
    repeat (constructor; try done); by apply matches_chr.
Qed.

(** X1: the service's [isValidEmail] accepts a string exactly when it is
    [a@b.c] where [a], [b] and [c] are non-empty and contain neither white
    space nor ['@'] ([b] and [c] may contain dots). *)
Theorem X1_isValidEmail_shape (s : string) :
  UserService.isValidEmail (Some (JStr s)) = true
  <-> exists a b c, s = a ++ "@" ++ b ++ "." ++ c
                    /\ Regex.word a /\ Regex.word b /\ Regex.word c.
Proof.
  cbn [UserService.isValidEmail].
  by rewrite test_matches, matches_emailRegex.
Qed.

Lemma all_chars_append (p : ascii -> bool) (s1 s2 : string) :
  Regex.all_chars p (s1 ++ s2)
  = Regex.all_chars p s1 && Regex.all_chars p s2.
Proof.
  induction s1 as [|c s1 IH]; [done|]. rewrite append_cons. simpl.
  by rewrite IH, andb_assoc.
Qed.

Lemma all_chars_impl (p q : ascii -> bool) (s : string) :
  (forall c, p c = true -> q c = true) ->
  Regex.all_chars p s = true -> Regex.all_chars q s = true.
Proof.
  intros Hpq. induction s as [|c s IH]; simpl; [done|].
  intros [Hp Hs]%andb_true_iff. by rewrite (Hpq c Hp), IH.
Qed.

Lemma trimStart_no_space (s : string) :
  Regex.all_chars (fun c => negb (is_space c)) s = true -> trimStart s = s.
Proof.
  destruct s as [|c s]; simpl; [done|].
  intros [Hc _]%andb_true_iff. apply negb_true_iff in Hc. by rewrite Hc.
Qed.

Lemma trimEnd_no_space (s : string) :
  Regex.all_chars (fun c => negb (is_space c)) s = true -> trimEnd s = s.
Proof.
  induction s as [|c s IH]; simpl; [done|].
  intros [Hc Hs]%andb_true_iff. apply negb_true_iff in Hc.
  rewrite (IH Hs), Hc. by destruct s.
Qed.

Lemma trim_no_space (s : string) :
  Regex.all_chars (fun c => negb (is_space c)) s = true -> trim s = s.
Proof.
  intros Hs. unfold trim. rewrite (trimStart_no_space s Hs).
  by apply trimEnd_no_space.
Qed.

Lemma word_no_space (s : string) :
  Regex.word s -> Regex.all_chars (fun c => negb (is_space c)) s = true.
Proof.
  intros [_ Hs]. revert Hs. apply all_chars_impl.
  unfold Regex.not_space_at. by intros c [Hc _]%andb_true_iff.
Qed.

(** A string that the email pattern accepts has no white space. *)
Lemma emailRegex_no_space (s : string) :
  Regex.test Regex.emailRegex s = true ->
  s <> "" /\ Regex.all_chars (fun c => negb (is_space c)) s = true.
Proof.
  rewrite test_matches, matches_emailRegex.
  intros (a & b & c & -> & Ha & Hb & Hc). split.
  - destruct Ha as [Ha _]. destruct a; [done|]. by rewrite append_cons.
  - rewrite !all_chars_append.
    rewrite (word_no_space a Ha), (word_no_space b Hb), (word_no_space c Hc).
    reflexivity.
Qed.

(** X2: every string that the service's [isValidEmail] accepts is
    accepted by [Validator.isValidEmail]; the validator trims first, so it
    accepts a string that is not empty exactly when the service accepts the
    trimmed string, and it accepts strings that the service refuses. *)
Theorem X2_validator_email_trims :
  (forall s : string,
      UserService.isValidEmail (Some (JStr s)) = true ->
      Validator.isValidEmail (Some (JStr s)) = true)
  /\ (forall s : string,
         s <> "" ->
         Validator.isValidEmail (Some (JStr s))
         = UserService.isValidEmail (Some (JStr (trim s))))
  /\ (Validator.isValidEmail (Some (JStr " a@b.c ")) = true
      /\ UserService.isValidEmail (Some (JStr " a@b.c ")) = false).
Proof.
  split; [|split].
  - intros s. cbn [UserService.isValidEmail].
    intros Hs. destruct (emailRegex_no_space s Hs) as [Hne Hsp].
    unfold Validator.isValidEmail. cbn [truthy is_string negb orb].
    apply String.eqb_neq in Hne. rewrite Hne. cbn [negb orb].
    by rewrite (trim_no_space s Hsp).
  - intros s Hne. unfold Validator.isValidEmail.
    cbn [truthy is_string negb orb UserService.isValidEmail].
    apply String.eqb_neq in Hne. by rewrite Hne.
  - split; vm_compute; reflexivity.
Qed.

Lemma X2_validator_email_trims_witness :
  UserService.isValidEmail (Some (JStr "john@example.com")) = true
  /\ Validator.isValidEmail (Some (JStr "john@example.com")) = true.
Proof.
  assert (H : UserService.isValidEmail (Some (JStr "john@example.com"))
              = true) by (vm_compute; reflexivity).
  split; [exact H|].
  exact (proj1 X2_validator_email_trims _ H).
Defined.

(** ** [sanitizeString] *)

Lemma remove_all_clean (p : ascii -> bool) (s : string) :
  Regex.all_chars (fun c => negb (p c)) (Regex.remove_all p s) = true.
Proof.
  induction s as [|c s IH]; simpl; [done|].
  destruct (p c) eqn:Hp; simpl; [done|]. by rewrite Hp, IH.
Qed.

Lemma remove_all_length (p : ascii -> bool) (s : string) :
  (String.length (Regex.remove_all p s) <= String.length s)%nat.
Proof.
  induction s as [|c s IH]; simpl; [done|]. destruct (p c); simpl; lia.
Qed.

Lemma remove_all_id (p : ascii -> bool) (s : string) :
  Regex.all_chars (fun c => negb (p c)) s = true -> Regex.remove_all p s = s.
Proof.
  induction s as [|c s IH]; simpl; [done|].
  intros [Hc Hs]%andb_true_iff. apply negb_true_iff in Hc.
  by rewrite Hc, IH.
Qed.

Lemma trimStart_length (s : string) :
  (String.length (trimStart s) <= String.length s)%nat.
Proof.
  induction s as [|c s IH]; simpl; [done|].
  destruct (is_space c); simpl; lia.
Qed.

Lemma trimEnd_length (s : string) :
  (String.length (trimEnd s) <= String.length s)%nat.
Proof.
  induction s as [|c s IH]; simpl; [done|].
  destruct (trimEnd s); [destruct (is_space c)|]; simpl in *; lia.
Qed.

Lemma trim_length_le (s : string) :
  (String.length (trim s) <= String.length s)%nat.
Proof.
  unfold trim. pose proof (trimEnd_length (trimStart s)).
  pose proof (trimStart_length s). lia.
Qed.

(** X3: the result of [Validator.sanitizeString] never contains ['<'] or
    ['>'] and is never longer than the string it was given; a value that is
    not a non-empty string gives the empty string; a string without angle
    brackets is trimmed and nothing else.  The trimming happens before the
    brackets are removed, so the result can begin with white space, and
    sanitizing it again can change it. *)
Theorem X3_sanitizeString (str : option jsval) :
  Regex.all_chars (fun c => negb (Regex.angle c))
    (Validator.sanitizeString str) = true
  /\ (forall s, str = Some (JStr s) ->
        (String.length (Validator.sanitizeString str) <= String.length s)%nat
        /\ (Regex.all_chars (fun c => negb (Regex.angle c)) s = true ->
            Validator.sanitizeString str = trim s))
  /\ ((forall s, str <> Some (JStr s)) -> Validator.sanitizeString str = "")
  /\ (Validator.sanitizeString (Some (JStr "< a")) = " a"
      /\ Validator.sanitizeString (Some (JStr " a")) = "a").
Proof.
  assert (Htrim_clean : forall s,
    Regex.all_chars (fun c => negb (Regex.angle c)) s = true ->
    Regex.all_chars (fun c => negb (Regex.angle c)) (trim s) = true).
  { intros s. unfold trim. intros Hs.
    assert (Hstart : Regex.all_chars (fun c => negb (Regex.angle c))
                       (trimStart s) = true).
    { induction s as [|c s IH]; simpl in *; [done|].
      apply andb_true_iff in Hs as [Hc Hs].
      destruct (is_space c); [by apply IH|]. simpl. by rewrite Hc, Hs. }
    clear Hs. revert Hstart. generalize (trimStart s). clear s.
    intros s. induction s as [|c s IH]; simpl; [done|].
    intros [Hc Hs]%andb_true_iff. specialize (IH Hs).
    destruct (trimEnd s); [destruct (is_space c)|]; simpl in *;
      rewrite ?Hc, ?IH; done. }
  unfold Validator.sanitizeString.
  destruct str as [[| x | q | s]|]; cbn [truthy is_string negb orb];
    rewrite ?orb_true_r.
  1-3, 5: (split; [done|]; split; [by intros s [=]|]; split; [done|];
           split; vm_compute; reflexivity).
  rewrite orb_false_r, negb_involutive.
  destruct (String.eqb_spec s "") as [->|Hs].
  - split; [done|]. split; [intros s [= <-]; split; [simpl; lia|done]|].
    split; [intros Hno; by destruct (Hno "")|].
    split; vm_compute; reflexivity.
  - split; [apply remove_all_clean|].
    split; [|split; [intros Hno; by destruct (Hno s)
                    |split; vm_compute; reflexivity]].
    intros s' [= <-]. split.
    + pose proof (remove_all_length Regex.angle (trim s)).
      pose proof (trim_length_le s). lia.
    + intros Hclean. apply remove_all_id. by apply Htrim_clean.
Qed.

Lemma X3_sanitizeString_witness :
  Validator.sanitizeString (Some (JStr "  hello  ")) = "hello".
Proof.
  destruct (X3_sanitizeString (Some (JStr "  hello  ")))
    as (_ & Hs & _).
  destruct (Hs "  hello  " eq_refl) as [_ Hclean].
  rewrite Hclean; reflexivity.
Defined.

(** ** [isValidUUID] *)

Lemma pointwise_app (ps1 ps2 : list (ascii -> bool)) (s : string) :
  Regex.pointwise (ps1 ++ ps2)%list s = true
  <-> exists s1 s2, s = s1 ++ s2 /\ Regex.pointwise ps1 s1 = true
                    /\ Regex.pointwise ps2 s2 = true.
Proof.
  revert s. induction ps1 as [|p ps1 IH]; intros s; simpl.
  - split.
    + intros Hs. by exists "", s.
    + intros (s1 & s2 & -> & H1 & H2). by destruct s1.
  - destruct s as [|c s].
    + split; [discriminate|]. intros (s1 & s2 & Hs & H1 & H2).
      destruct s1; [discriminate H1|]. rewrite append_cons in Hs.
      discriminate Hs.
    + rewrite andb_true_iff, IH. split.
      * intros (Hp & s1 & s2 & -> & H1 & H2).
        exists (String c s1), s2. split; [done|]. simpl. by rewrite Hp, H1.
      * intros (s1 & s2 & Hs & H1 & H2). destruct s1 as [|c1 s1]; [done|].
        rewrite append_cons in Hs. injection Hs as -> ->.
        apply andb_true_iff in H1 as [Hp H1]. split; [done|].
        by exists s1, s2.
Qed.

Lemma classes_matches (r : Regex.regex) :
  forall ps s, Regex.classes r = Some ps ->
               (Regex.matches r s <-> Regex.pointwise ps s = true).
Proof.
  induction r as [| | p | | r1 IH1 r2 IH2 |]; intros ps s; simpl;
    try discriminate.
  - intros [= <-]. split.
    + intros Hm. by inversion Hm.
    + destruct s; [constructor|discriminate].
  - intros [= <-]. rewrite matches_class. split.
    + intros (c & -> & Hp). simpl. by rewrite Hp.
    + destruct s as [|c [|]]; simpl; try discriminate.
      * rewrite andb_true_r. intros Hp. by exists c.
      * rewrite andb_false_r. discriminate.
  - destruct (Regex.classes r1) as [ps1|]; [|discriminate].
    destruct (Regex.classes r2) as [ps2|]; [|discriminate].
    intros [= <-]. rewrite matches_seq, pointwise_app.
    split; intros (s1 & s2 & -> & H1 & H2); exists s1, s2;
      (split; [done|]); split;
      first [by apply (IH1 ps1)|by apply (IH2 ps2)].
Qed.

Lemma pointwise_units (ps : list (ascii -> bool)) (s : string) :
  Regex.pointwise ps s = true
  <-> String.length s = length ps
      /\ forall i p c, nth_error ps i = Some p -> String.get i s = Some c ->
                       p c = true.
Proof.
  revert s. induction ps as [|p ps IH]; intros [|c s]; simpl.
  - split; [|done]. intros _. split; [done|]. by intros [|i] p c.
  - split; [discriminate|]. by intros [[=] _].
  - split; [discriminate|]. by intros [[=] _].
  - rewrite andb_true_iff, IH. split.
    + intros (Hp & Hlen & Hall). split; [by rewrite Hlen|].
      intros [|i] p' c'; simpl.
      * by intros [= <-] [= <-].
      * apply Hall.
    + intros (Hlen & Hall). split; [by apply (Hall 0%nat)|].
      split; [by injection Hlen|]. intros i p' c'. apply (Hall (S i)).
Qed.

Lemma uuidRegex_classes :
  exists ps, Regex.classes Regex.uuidRegex = Some ps
             /\ length ps = 36%nat
             /\ forall i p, nth_error ps i = Some p ->
                            forall c, p c = Regex.uuid_unit i c.
Proof.
  eexists. split; [reflexivity|]. split; [reflexivity|].
  intros i p.
  do 36 (destruct i as [|i]; [intros [= <-]; reflexivity|]).
  simpl. by destruct i.
Qed.

(** X4: [Validator.isValidUUID] accepts exactly the strings of 36 code
    units that have ['-'] at the indices 8, 13, 18 and 23, a digit from 1
    to 5 at index 14, one of 8, 9, a, b (in either case) at index 19 and a
    hexadecimal digit (in either case) everywhere else. *)
Theorem X4_isValidUUID_shape (uuid : option jsval) :
  Validator.isValidUUID uuid = true
  <-> exists s, uuid = Some (JStr s)
                /\ String.length s = 36%nat
                /\ forall i c, String.get i s = Some c ->
                               Regex.uuid_unit i c = true.
Proof.
  destruct uuidRegex_classes as (ps & Hps & Hlen & Hunits).
  unfold Validator.isValidUUID.
  destruct uuid as [[| x | q | s]|]; cbn [truthy is_string negb orb];
    rewrite ?orb_true_r;
    try (split; [discriminate|by intros (s' & [=] & _)]).
  rewrite orb_false_r, negb_involutive.
  assert (Hiff : Regex.test Regex.uuidRegex s = true
                 <-> String.length s = 36%nat
                     /\ forall i c, String.get i s = Some c ->
                                    Regex.uuid_unit i c = true).
  { rewrite test_matches, (classes_matches _ ps s Hps), pointwise_units, Hlen.
    split; intros [Hl Hall]; (split; [done|]).
    - intros i c Hget.
      destruct (nth_error ps i) as [p|] eqn:Hp.
      + rewrite <- (Hunits i p Hp). by apply (Hall i p c).
      + apply nth_error_None in Hp.
        assert (Hsome : String.get i s <> None) by congruence.
        exfalso. apply Hsome. clear -Hp Hl Hlen.
        assert (Hi : (String.length s <= i)%nat) by lia. clear -Hi.
        revert i Hi. induction s as [|c s IH]; intros i Hi; [by destruct i|].
        destruct i as [|i]; simpl in *; [lia|]. apply IH. lia.
    - intros i p c Hp Hget. rewrite (Hunits i p Hp). by apply Hall. }
  destruct (String.eqb_spec s "") as [->|Hs]; cbn [negb].
  - split; [discriminate|]. by intros (s' & [= <-] & [=] & _).
  - rewrite Hiff. split.
    + intros H. by exists s.
    + by intros (s' & [= <-] & H).
Qed.

Example isValidUUID_examples :
  Validator.isValidUUID (Some (JStr "123e4567-e89b-42d3-a456-426614174000"))
  = true
  /\ Validator.isValidUUID (Some (JStr "123E4567-E89B-42D3-A456-426614174000"))
     = true
  /\ Validator.isValidUUID (Some (JStr "00000000-0000-0000-0000-000000000000"))
     = false
  /\ Validator.isValidUUID (Some (JStr "123e4567e89b42d3a456426614174000"))
     = false.
Proof. repeat split; vm_compute; reflexivity. Qed.

(** ** Validation of whole objects *)

Lemma isValidAge_spec (age : option jsval) :
  Validator.isValidAge age = true <-> valid_age age.
Proof.
  unfold valid_age.
  destruct age as [[| b | q | s]|]; simpl;
    try (split; [discriminate | intros (q' & [=] & _)]).
  rewrite andb_true_iff, !leb_le. split.
  - intros [H0 H150]. by exists q.
  - by intros (q' & [= <-] & H0 & H150).
Qed.

Lemma age_rejected_spec (age : option jsval) :
  age_rejected age = false <-> valid_age age.
Proof.
  rewrite <- age_out_of_range_spec. by destruct age as [[| | |]|].
Qed.

Lemma email_rejected_spec (email : option jsval) :
  email_rejected email = false <-> UserService.isValidEmail email = true.
Proof.
  unfold email_rejected. rewrite orb_false_iff, !negb_false_iff. split.
  - by intros [_ H].
  - intros H. split; [|done].
    destruct email as [[| b | q | s]|]; try discriminate H.
    destruct (emailRegex_no_space s H) as [Hne _].
    apply String.eqb_neq in Hne. simpl. by rewrite Hne.
Qed.

Lemma ageError_reported (userData : obj) :
  In ageError (errors (validateUserData userData))
  <-> age_rejected (userData !! "age") = true.
Proof.
  unfold validateUserData, push_if, nameError, emailError, ageError. simpl.
  destruct (name_rejected _), (email_rejected _), (age_rejected _); simpl;
    split; try done; auto;
    intros H; repeat destruct H as [H|H]; try discriminate H; done.
Qed.

(** X5: [Validator.isValidAge] accepts exactly the numbers from 0 to 150.
    [validateUserData] reports the age error for every age that is not a
    number, a missing or [null] age among them, and for a number exactly
    when it is below 0 or above 150; so every age for which it reports the
    error is one that [isValidAge] refuses. *)
Theorem X5_age_checks_agree :
  (forall age : option jsval,
      Validator.isValidAge age = true
      <-> exists q, age = Some (JNum q) /\ (num 0 <= q)%Qc
                    /\ (q <= num 150)%Qc)
  /\ (forall userData : obj,
         is_number (userData !! "age") = false ->
         In ageError (errors (validateUserData userData)))
  /\ (forall (userData : obj) (q : Qc),
         userData !! "age" = Some (JNum q) ->
         In ageError (errors (validateUserData userData))
         <-> ltb q (num 0) = true \/ ltb (num 150) q = true)
  /\ (forall userData : obj,
         In ageError (errors (validateUserData userData)) ->
         Validator.isValidAge (userData !! "age") = false).
Proof.
  split; [exact isValidAge_spec|]. split; [|split].
  - intros userData Hn. apply ageError_reported.
    by destruct (userData !! "age") as [[| b | q | s]|].
  - intros userData q Hq. rewrite ageError_reported, Hq.
    unfold age_rejected, age_out_of_range.
    cbn [is_number negb orb]. by rewrite orb_true_iff.
  - intros userData Hin. apply ageError_reported in Hin.
    pose proof (isValidAge_spec (userData !! "age")) as Hv.
    pose proof (age_rejected_spec (userData !! "age")) as Hr.
    destruct (Validator.isValidAge _); [|done].
    exfalso. assert (Hf : age_rejected (userData !! "age") = false)
      by (apply Hr, Hv; done).
    congruence.
Qed.

Lemma X5_age_checks_agree_witness :
  In ageError (errors (validateUserData (delete "age" Sample.testUser))).
Proof.
  apply (proj1 (proj2 X5_age_checks_agree)). reflexivity.
Defined.

Lemma validateUserData_valid (userData : obj) :
  isValid (validateUserData userData) = true
  <-> valid_name (userData !! "name")
      /\ UserService.isValidEmail (userData !! "email") = true
      /\ valid_age (userData !! "age").
Proof.
  unfold validateUserData. simpl. rewrite isValid_push_if, negb_true_iff.
  rewrite !orb_false_iff.
  rewrite email_rejected_spec, age_rejected_spec.
  pose proof (name_rejected_spec (userData !! "name")) as Hn.
  fold (valid_name (userData !! "name")) in Hn.
  destruct (name_rejected (userData !! "name")).
  - split; [by intros [[[=] _] _]|]. intros (Hv & _). by apply Hn in Hv.
  - split; [|tauto]. intros [[_ He] Ha]. split; [|done].
    destruct (userData !! "name") as [[| b | q | s]|];
      try (assert (false = true) by (apply Hn; by intros (? & [=] & _));
           done).
    exists s. split; [done|].
    destruct (decide (2 <= String.length (trim s))%nat); [done|].
    assert (false = true); [|done]. apply Hn.
    intros (s' & [= <-] & Hlen). done.
Qed.

(** X6: [validateUserData] accepts creation data exactly when the name is
    a string of trimmed length at least 2, [isValidEmail] accepts the
    email, and the age is a number that is neither below 0 nor above 150;
    its tests for missing and falsy values refuse nothing more. *)
Theorem X6_validateUserData_accepts (userData : obj) :
  isValid (validateUserData userData) = true
  <-> (exists s, userData !! "name" = Some (JStr s)
                 /\ (2 <= String.length (trim s))%nat)
      /\ UserService.isValidEmail (userData !! "email") = true
      /\ (exists q, userData !! "age" = Some (JNum q)
                    /\ ltb q (num 0) = false /\ ltb (num 150) q = false).
Proof.
  rewrite validateUserData_valid. unfold valid_name, valid_age.
  assert (Ha : (exists q, userData !! "age" = Some (JNum q)
                          /\ (num 0 <= q)%Qc /\ (q <= num 150)%Qc)
               <-> (exists q, userData !! "age" = Some (JNum q)
                              /\ ltb q (num 0) = false
                              /\ ltb (num 150) q = false)).
  { split; intros (q & Hq & H1 & H2); exists q; split; try done;
      rewrite !ltb_false_le in *; done. }
  by rewrite Ha.
Qed.

(** X7: on an object that has the three properties [name], [email] and
    [age], update validation and creation validation give the same
    result; hence creation data that [validateUserData] accepts is also
    accepted as a patch. *)
Theorem X7_validations_agree (data : obj) :
  (is_Some (data !! "name") -> is_Some (data !! "email") ->
   is_Some (data !! "age") ->
   validateUpdateData data = validateUserData data)
  /\ (isValid (validateUserData data) = true ->
      isValid (validateUpdateData data) = true).
Proof.
  assert (Hsame : is_Some (data !! "name") -> is_Some (data !! "email") ->
                  is_Some (data !! "age") ->
                  validateUpdateData data = validateUserData data).
  { intros [n Hn] [e He] [a Ha]. unfold validateUpdateData, validateUserData.
    rewrite Hn, He, Ha.
    assert (Hname : name_update_rejected (Some n) = name_rejected (Some n)).
    { unfold name_update_rejected, name_rejected.
      destruct n as [| b | q | s];
        cbn [truthy is_string negb orb trim_length];
        rewrite ?orb_true_r; try done.
      by destruct (String.eqb_spec s "") as [->|]. }
    assert (Hemail : email_update_rejected (Some e)
                     = email_rejected (Some e)).
    { unfold email_update_rejected, email_rejected.
      destruct e as [| b | q | s];
        cbn [truthy UserService.isValidEmail negb orb];
        rewrite ?orb_true_r; try done.
      by destruct (String.eqb_spec s "") as [->|]. }
    assert (Hage : age_update_rejected (Some a) = age_rejected (Some a))
      by (by destruct a).
    by rewrite Hname, Hemail, Hage. }
  split; [exact Hsame|].
  intros Hv. pose proof Hv as Hv'.
  apply validateUserData_valid in Hv' as ((s & Hs & _) & He & (q & Hq & _)).
  rewrite Hsame; [done|by eexists| |by eexists].
  destruct (data !! "email"); [by eexists|discriminate He].
Qed.

Lemma X7_validations_agree_witness :
  validateUpdateData Sample.testUser = validateUserData Sample.testUser
  /\ isValid (validateUpdateData Sample.testUser) = true.
Proof.
  destruct (X7_validations_agree Sample.testUser) as [Hsame Hvalid].
  split.
  - apply Hsame; by eexists.
  - apply Hvalid. reflexivity.
Defined.

(** ** The store: rejections *)

(** X8: the three lookups never change the store.  [createUser] is
    rejected only with 'Database not connected' or 'User with this email
    already exists', [updateUser] only with those two or 'User not found',
    [deleteUser] only with 'Database not connected' or 'User not found',
    [clearAllData] only with 'Database not connected'; a rejected
    operation leaves the store as it was. *)
Theorem X8_store_rejections
    (d : Store) (uuid : string) (createdNow updatedNow now : Z)
    (id email : option jsval) (userData updateData : obj) :
  ((findAllUsers d).2 = d /\ (findUserById id d).2 = d
   /\ (findUserByEmail email d).2 = d)
  /\ (forall e,
         (Database.createUser uuid createdNow updatedNow userData d).1
         = Rejected e ->
         (Database.createUser uuid createdNow updatedNow userData d).2 = d
         /\ (e = "Database not connected"
             \/ e = "User with this email already exists"))
  /\ (forall e,
         (Database.updateUser now id updateData d).1 = Rejected e ->
         (Database.updateUser now id updateData d).2 = d
         /\ (e = "Database not connected" \/ e = "User not found"
             \/ e = "User with this email already exists"))
  /\ (forall e,
         (Database.deleteUser id d).1 = Rejected e ->
         (Database.deleteUser id d).2 = d
         /\ (e = "Database not connected" \/ e = "User not found"))
  /\ (forall e,
         (clearAllData d).1 = Rejected e ->
         (clearAllData d).2 = d /\ e = "Database not connected").
Proof.
  unfold findAllUsers, findUserById, findUserByEmail, Database.createUser,
    Database.updateUser, Database.deleteUser, clearAllData, notConnected.
  destruct (isConnected d); cbn [negb].
  - split; [done|]. split; [|split; [|split]].
    + intros e. destruct (List.find _ _); simpl; [|discriminate].
      intros [= <-]. auto.
    + intros e. destruct (Map_get _ _); simpl; [|intros [= <-]; auto].
      destruct (if _ && _ then _ else _); simpl; [|discriminate].
      intros [= <-]. auto.
    + intros e. destruct (Map_has _ _); simpl; [discriminate|].
      intros [= <-]. auto.
    + intros e. discriminate.
  - simpl. split; [done|].
    split; [|split; [|split]]; intros e' [= <-]; auto.
Qed.

Lemma X8_store_rejections_witness :
  (Database.deleteUser (Some (JStr "no-such-id")) Sample.seeded).1
  = Rejected "User not found"
  /\ (Database.deleteUser (Some (JStr "no-such-id")) Sample.seeded).2
     = Sample.seeded.
Proof.
  assert (H : (Database.deleteUser (Some (JStr "no-such-id"))
                 Sample.seeded).1 = Rejected "User not found")
    by reflexivity.
  split; [exact H|].
  destruct (X8_store_rejections Sample.seeded "id-3" 1 2 3
              (Some (JStr "no-such-id")) None ∅ ∅)
    as (_ & _ & _ & Hdel & _).
  exact (proj1 (Hdel _ H)).
Defined.

(** ** The store: creation *)

Lemma find_email_Some (e : option jsval) (m : Map) (v : record) :
  In v (Map_values m) -> v !! "email" = of_json e ->
  is_Some (List.find (fun u : record => strict_eq (u !! "email") e)
             (Map_values m)).
Proof.
  intros Hin He. apply (find_is_Some _ _ v Hin).
  by apply bool_decide_eq_true_2.
Qed.

Lemma find_email_Map_set (e : option jsval) (k : option fieldval)
    (u : record) (m : Map) :
  List.find (fun v : record => strict_eq (v !! "email") e) (Map_values m)
  = None ->
  u !! "email" = of_json e ->
  List.find (fun v : record => strict_eq (v !! "email") e)
    (Map_values (Map_set k u m)) = Some u.
Proof.
  intros Hnone Hu.
  assert (Hsat : strict_eq (u !! "email") e = true)
    by (by apply bool_decide_eq_true_2).
  induction m as [|[k' v'] m IH]; simpl in *.
  - by rewrite Hsat.
  - destruct (strict_eq (v' !! "email") e) eqn:Hv'; [discriminate|].
    destruct (decide (k' = k)); simpl.
    + by rewrite Hsat.
    + rewrite Hv'. by apply IH.
Qed.

Lemma lookup_created (uuid : string) (createdNow updatedNow : Z)
    (userData : obj) (f : string) :
  f <> "createdAt" -> f <> "updatedAt" ->
  (<["updatedAt" := FDate updatedNow]>
     (<["createdAt" := FDate createdNow]>
        (spread {["id" := FJson (JStr uuid)]} (FJson <$> userData)))) !! f
  = match userData !! f with
    | Some v => Some (FJson v)
    | None => if decide (f = "id") then Some (FJson (JStr uuid)) else None
    end.
Proof.
  intros Hc Hu. rewrite !lookup_insert_ne by done.
  destruct (userData !! f) as [v|] eqn:Hf.
  - by apply lookup_spread_present.
  - rewrite lookup_spread_absent by done.
    destruct (decide (f = "id")) as [->|Hid].
    + apply lookup_singleton_eq.
    + by apply lookup_singleton_ne.
Qed.

Lemma createUser_found_by_email
    (d d' : Store) (uuid : string) (createdNow updatedNow : Z)
    (userData : obj) (u : record) :
  Database.createUser uuid createdNow updatedNow userData d
  = (Resolved u, d') ->
  findUserByEmail (userData !! "email") d' = (Resolved (Some u), d').
Proof.
  intros Hcreate. pose proof Hcreate as Hshape.
  apply createUser_resolved in Hshape as [Hu Hd'].
  unfold Database.createUser in Hcreate.
  destruct (isConnected d) eqn:Hc; cbn [negb] in Hcreate; [|discriminate].
  destruct (List.find _ _) eqn:Hfind in Hcreate; [discriminate|].
  unfold findUserByEmail. rewrite Hd'. cbn [isConnected users negb].
  f_equal. f_equal. apply find_email_Map_set; [done|].
  rewrite Hu, lookup_created by done. unfold of_json.
  by destruct (userData !! "email").
Qed.

(** X9: on a connected store [createUser] is accepted exactly when no
    stored record has the email of the creation data (a missing email
    counts as a value).  The record it returns has every property of the
    creation data other than the two stamps, has the generated id when the
    data has none, and is what [findUserByEmail] then finds for that
    email. *)
Theorem X9_create_accepts
    (d : Store) (uuid : string) (createdNow updatedNow : Z)
    (userData : obj) :
  isConnected d = true ->
  ((exists u d',
       Database.createUser uuid createdNow updatedNow userData d
       = (Resolved u, d'))
   <-> forall v, In v (Map_values (users d)) ->
                 v !! "email" <> of_json (userData !! "email"))
  /\ (forall u d',
         Database.createUser uuid createdNow updatedNow userData d
         = (Resolved u, d') ->
         findUserByEmail (userData !! "email") d' = (Resolved (Some u), d')
         /\ (forall f v, userData !! f = Some v ->
                         f <> "createdAt" -> f <> "updatedAt" ->
                         u !! f = Some (FJson v))
         /\ (userData !! "id" = None ->
             u !! "id" = Some (FJson (JStr uuid)))).
Proof.
  intros Hc. split.
  - unfold Database.createUser. rewrite Hc. cbn [negb].
    destruct (List.find _ _) as [w|] eqn:Hfind; simpl.
    + split; [by intros (u & d' & [=])|]. intros Hno. exfalso.
      apply find_some in Hfind as [Hin Hw].
      apply bool_decide_eq_true_1 in Hw. by apply (Hno w).
    + split; [|by eexists _, _]. intros _ v Hin Hv.
      pose proof (find_none _ _ Hfind v Hin) as Hneq. simpl in Hneq.
      by apply bool_decide_eq_false_1 in Hneq.
  - intros u d' Hcreate.
    pose proof Hcreate as Hshape.
    apply createUser_resolved in Hshape as [Hu Hd'].
    assert (Hfields : forall f, f <> "createdAt" -> f <> "updatedAt" ->
              u !! f = match userData !! f with
                       | Some v => Some (FJson v)
                       | None => if decide (f = "id")
                                 then Some (FJson (JStr uuid)) else None
                       end).
    { intros f H1 H2. rewrite Hu. by apply lookup_created. }
    split; [|split].
    + by apply (createUser_found_by_email d d' uuid createdNow updatedNow).
    + intros f v Hf H1 H2. by rewrite Hfields, Hf.
    + intros Hid. by rewrite Hfields, Hid.
Qed.

Lemma X9_create_accepts_witness :
  exists u d',
    Database.createUser "id-3" 1000 1001 Sample.testUser Sample.seeded
    = (Resolved u, d')
    /\ findUserByEmail (Some (JStr "test@example.com")) d'
       = (Resolved (Some u), d')
    /\ u !! "id" = Some (FJson (JStr "id-3")).
Proof.
  eexists _, _. split; [reflexivity|].
  destruct (X9_create_accepts Sample.seeded "id-3" 1000 1001
              Sample.testUser eq_refl) as [_ Hres].
  destruct (Hres _ _ eq_refl) as (Hfind & _ & Hid).
  split; [exact Hfind|]. apply Hid. reflexivity.
Defined.

(** ** The store: update and storage order *)

Lemma Map_set_keys_present k u v m :
  Map_get k m = Some u -> Map_keys (Map_set k v m) = Map_keys m.
Proof.
  unfold Map_keys. induction m as [|[k' v'] m IH]; simpl; [discriminate|].
  destruct (decide (k' = k)); simpl; [done|]. intros Hg. by rewrite IH.
Qed.

Lemma Map_set_absent k v m :
  Map_get k m = None -> Map_set k v m = (m ++ [(k, v)])%list.
Proof.
  induction m as [|[k' v'] m IH]; simpl; [done|].
  destruct (decide (k' = k)); [discriminate|]. intros Hg. by rewrite IH.
Qed.

Lemma Map_get_keys k m : is_Some (Map_get k m) <-> In k (Map_keys m).
Proof.
  unfold Map_keys. induction m as [|[k' v'] m IH]; simpl.
  - split; [by intros [? [=]]|done].
  - destruct (decide (k' = k)) as [->|Hne].
    + split; [by left|by eexists].
    + rewrite IH. split; [by right|]. by intros [?|?].
Qed.

(** X10: an update of a stored user whose patch has no email, or has the
    user's current email, is accepted.  The record of an accepted update
    has every property of the patch other than [updatedAt], and the update
    keeps the number and the order of the stored records. *)
Theorem X10_update_merges
    (now : Z) (id : option jsval) (d : Store) (user : record)
    (updateData : obj) :
  isConnected d = true ->
  Map_get (of_json id) (users d) = Some user ->
  ((updateData !! "email" = None
    \/ of_json (updateData !! "email") = user !! "email") ->
   exists u' d', Database.updateUser now id updateData d = (Resolved u', d'))
  /\ (forall u' d',
         Database.updateUser now id updateData d = (Resolved u', d') ->
         (forall f v, updateData !! f = Some v -> f <> "updatedAt" ->
                      u' !! f = Some (FJson v))
         /\ Map_keys (users d') = Map_keys (users d)
         /\ isConnected d' = true).
Proof.
  intros Hc Hu. split.
  - intros Hemail. unfold Database.updateUser. rewrite Hc, Hu. cbn [negb].
    assert (Hcond : truthy (updateData !! "email")
                    && negb (strict_eq (user !! "email")
                               (updateData !! "email")) = false).
    { destruct Hemail as [->|Heq]; [done|].
      unfold strict_eq. rewrite bool_decide_eq_true_2 by done.
      apply andb_false_r. }
    rewrite Hcond. by eexists _, _.
  - intros u' d' Hup.
    destruct (updateUser_resolved _ _ _ _ _ _ _ Hu Hup) as [Hu' ->].
    split; [|split].
    + intros f v Hf Hne. rewrite Hu', lookup_insert_ne by done.
      by apply lookup_spread_present.
    + simpl. by apply (Map_set_keys_present _ user).
    + done.
Qed.

Lemma X10_update_merges_witness :
  exists u' d',
    Database.updateUser 2000 Sample.john
      {["email" := JStr "john@example.com"]} Sample.seeded
    = (Resolved u', d')
    /\ Map_keys (users d') = Map_keys (users Sample.seeded).
Proof.
  destruct (X10_update_merges 2000 Sample.john Sample.seeded
              (default ∅ (Map_get (of_json Sample.john)
                            (users Sample.seeded)))
              {["email" := JStr "john@example.com"]} eq_refl eq_refl)
    as [Hacc Hres].
  destruct Hacc as (u' & d' & Hup); [right; reflexivity|].
  exists u', d'. split; [exact Hup|].
  by destruct (Hres u' d' Hup) as (_ & ? & _).
Defined.

(** X11: an accepted [createUser] whose record has an id that is not yet
    a key of the store appends the record, so that [findAllUsers] lists it
    last; when the id is already a key, the record takes the place of the
    one stored under it and the keys stay as they were. *)
Theorem X11_create_appends
    (d d' : Store) (uuid : string) (createdNow updatedNow : Z)
    (userData : obj) (u : record) :
  Database.createUser uuid createdNow updatedNow userData d
  = (Resolved u, d') ->
  (Map_get (u !! "id") (users d) = None ->
   users d' = (users d ++ [(u !! "id", u)])%list
   /\ findAllUsers d'
      = (Resolved (Map_values (users d) ++ [u])%list, d'))
  /\ (is_Some (Map_get (u !! "id") (users d)) ->
      Map_keys (users d') = Map_keys (users d)
      /\ Map_get (u !! "id") (users d') = Some u).
Proof.
  intros Hcreate.
  assert (Hc : isConnected d = true).
  { unfold Database.createUser in Hcreate.
    by destruct (isConnected d). }
  apply createUser_resolved in Hcreate as [_ ->]. split.
  - intros Hfresh. simpl. rewrite (Map_set_absent _ _ _ Hfresh).
    split; [done|]. unfold findAllUsers. simpl. rewrite Hc. cbn [negb].
    f_equal. f_equal. unfold Map_values. by rewrite map_app.
  - intros [w Hw]. simpl. split.
    + by apply (Map_set_keys_present _ w).
    + apply Map_get_set_eq.
Qed.

Lemma X11_create_appends_witness :
  exists u d',
    Database.createUser "id-3" 1000 1001 Sample.testUser Sample.seeded
    = (Resolved u, d')
    /\ findAllUsers d'
       = (Resolved (Map_values (users Sample.seeded) ++ [u])%list, d').
Proof.
  eexists _, _. split; [reflexivity|].
  destruct (X11_create_appends Sample.seeded _ "id-3" 1000 1001
              Sample.testUser _ eq_refl) as [Hfresh _].
  apply Hfresh. reflexivity.
Defined.

(** ** The store: one entry per key *)

Lemma In_Map_set k1 u1 k v m :
  In (k1, u1) (Map_set k v m) -> (k1 = k /\ u1 = v) \/ In (k1, u1) m.
Proof.
  induction m as [|[k' v'] m IH]; simpl.
  - intros [[= <- <-]|[]]. by left.
  - destruct (decide (k' = k)) as [->|Hne]; simpl.
    + intros [[= <- <-]|Hin]; [by left|by right; right].
    + intros [Heq|Hin]; [by right; left|].
      destruct (IH Hin); [by left|by right; right].
Qed.

Lemma In_Map_delete k1 u1 k m :
  In (k1, u1) (Map_delete k m) -> In (k1, u1) m.
Proof.
  induction m as [|[k' v'] m IH]; simpl; [done|].
  destruct (decide (k' = k)); simpl; [by right|].
  intros [Heq|Hin]; [by left|right; by apply IH].
Qed.

Lemma Map_get_In_entry k u m : Map_get k m = Some u -> In (k, u) m.
Proof.
  induction m as [|[k' v'] m IH]; simpl; [discriminate|].
  destruct (decide (k' = k)) as [->|Hne]; [intros [= ->]; by left|].
  intros Hg. right. by apply IH.
Qed.

Lemma In_entry_Map_get k u m :
  List.NoDup (Map_keys m) -> In (k, u) m -> Map_get k m = Some u.
Proof.
  unfold Map_keys. induction m as [|[k' v'] m IH]; simpl; [done|].
  intros [Hk' Hnd]%List.NoDup_cons_iff [[= -> ->]|Hin].
  - by rewrite decide_True.
  - destruct (decide (k' = k)) as [->|Hne]; [|by apply IH].
    exfalso. apply Hk'. apply in_map_iff. by exists (k, u).
Qed.

Lemma Map_set_keys_NoDup k v m :
  List.NoDup (Map_keys m) -> List.NoDup (Map_keys (Map_set k v m)).
Proof.
  intros Hnd. destruct (Map_get k m) as [u|] eqn:Hg.
  - by rewrite (Map_set_keys_present _ u).
  - rewrite (Map_set_absent _ _ _ Hg). unfold Map_keys. rewrite map_app.
    simpl. apply NoDup_ListNoDup, NoDup_app. split; [by apply NoDup_ListNoDup|].
    split; [|apply NoDup_singleton].
    intros x Hx ->%list_elem_of_singleton.
    apply list_elem_of_In, Map_get_keys in Hx as [? Hx]. congruence.
Qed.

Lemma Map_delete_keys_In k k1 m :
  In k1 (Map_keys (Map_delete k m)) -> In k1 (Map_keys m).
Proof.
  unfold Map_keys. induction m as [|[k' v'] m IH]; simpl; [done|].
  destruct (decide (k' = k)); simpl; [by right|].
  intros [Heq|Hin]; [by left|right; by apply IH].
Qed.

Lemma Map_delete_keys_NoDup k m :
  List.NoDup (Map_keys m) -> List.NoDup (Map_keys (Map_delete k m)).
Proof.
  induction m as [|[k' v'] m IH]; simpl; [done|].
  intros [Hk' Hnd]%List.NoDup_cons_iff.
  destruct (decide (k' = k)); simpl; [done|].
  constructor; [|by apply IH].
  intros Hin. apply Hk'. by apply (Map_delete_keys_In k).
Qed.

Lemma Map_get_delete_eq k m :
  List.NoDup (Map_keys m) -> Map_get k (Map_delete k m) = None.
Proof.
  induction m as [|[k' v'] m IH]; simpl; [done|].
  intros [Hk' Hnd]%List.NoDup_cons_iff.
  destruct (decide (k' = k)) as [->|Hne]; simpl.
  - destruct (Map_get k m) eqn:Hg; [|done]. exfalso. apply Hk'.
    apply Map_get_keys. by eexists.
  - rewrite decide_False by done. by apply IH.
Qed.

Lemma Map_get_delete_ne k k1 m :
  k <> k1 -> Map_get k1 (Map_delete k m) = Map_get k1 m.
Proof.
  intros Hne. induction m as [|[k' v'] m IH]; simpl; [done|].
  destruct (decide (k' = k)) as [->|Hk]; simpl.
  - by rewrite decide_False.
  - by rewrite IH.
Qed.

Lemma Map_delete_length k m :
  Map_has k m = true -> S (length (Map_delete k m)) = length m.
Proof.
  unfold Map_has. induction m as [|[k' v'] m IH]; simpl; [discriminate|].
  destruct (decide (k' = k)); simpl; [done|]. intros Hh. by rewrite IH.
Qed.

Lemma perform_keys (o : operation) (d : Store) :
  List.NoDup (Map_keys (users d)) ->
  List.NoDup (Map_keys (users (perform d o))).
Proof.
  intros Hnd. destruct o; simpl perform; try done.
  - unfold Database.createUser, notConnected.
    destruct (isConnected d); simpl; [|done].
    destruct (List.find _ _); simpl; [done|]. by apply Map_set_keys_NoDup.
  - unfold Database.updateUser, notConnected.
    destruct (isConnected d); simpl; [|done].
    destruct (Map_get _ _); simpl; [|done].
    destruct (if _ && _ then _ else _); simpl; [done|].
    by apply Map_set_keys_NoDup.
  - unfold Database.deleteUser, notConnected.
    destruct (isConnected d); simpl; [|done].
    destruct (Map_has _ _); simpl; [|done]. by apply Map_delete_keys_NoDup.
  - unfold clearAllData, notConnected.
    destruct (isConnected d); simpl; [|done]. constructor.
Qed.

Lemma run_keys (uuid1 uuid2 : string) (ops : list operation) :
  List.NoDup (Map_keys (users (run uuid1 uuid2 ops))).
Proof.
  unfold run.
  assert (Hnew : List.NoDup (Map_keys (users (new uuid1 uuid2)))).
  { unfold new, seedData, sampleUsers. cbn [users fold_left].
    do 2 apply Map_set_keys_NoDup. constructor. }
  revert Hnew. generalize (new uuid1 uuid2).
  induction ops as [|o ops IH]; intros d Hnd; simpl; [done|].
  apply IH. by apply perform_keys.
Qed.

Lemma deleteUser_removes (d : Store) (id : option jsval) :
  List.NoDup (Map_keys (users d)) ->
  isConnected d = true ->
  (Map_get (of_json id) (users d) = None ->
   Database.deleteUser id d = (Rejected "User not found", d))
  /\ (is_Some (Map_get (of_json id) (users d)) ->
      exists d',
        Database.deleteUser id d = (Resolved true, d')
        /\ findUserById id d' = (Resolved None, d')
        /\ (forall id', of_json id' <> of_json id ->
              findUserById id' d'
              = (Resolved (Map_get (of_json id') (users d)), d'))
        /\ S (length (users d')) = length (users d)).
Proof.
  intros Hnd Hc.
  unfold Database.deleteUser, Map_has. rewrite Hc. cbn [negb]. split.
  - by intros ->.
  - intros [u Hu]. rewrite Hu. cbn [negb]. eexists. split; [done|].
    unfold findUserById. cbn [isConnected users negb].
    split; [by rewrite Map_get_delete_eq|]. split.
    + intros id' Hne. by rewrite Map_get_delete_ne.
    + apply Map_delete_length. unfold Map_has. by rewrite Hu.
Qed.

(** X12: in every state that a run of store operations reaches, on a
    connected store, [deleteUser] of an id that is not a key is rejected
    with 'User not found'; of an id that is a key it is accepted, the store
    has one record less, [findUserById] of that id then gives [null], and
    every other id is found as before. *)
Theorem X12_delete_removes
    (uuid1 uuid2 : string) (ops : list operation) (id : option jsval) :
  let d := run uuid1 uuid2 ops in
  isConnected d = true ->
  (Map_get (of_json id) (users d) = None ->
   Database.deleteUser id d = (Rejected "User not found", d))
  /\ (is_Some (Map_get (of_json id) (users d)) ->
      exists d',
        Database.deleteUser id d = (Resolved true, d')
        /\ findUserById id d' = (Resolved None, d')
        /\ (forall id', of_json id' <> of_json id ->
              findUserById id' d'
              = (Resolved (Map_get (of_json id') (users d)), d'))
        /\ S (length (users d')) = length (users d)).
Proof.
  intros d Hc. apply deleteUser_removes; [apply run_keys|exact Hc].
Qed.

Lemma X12_delete_removes_witness :
  exists d',
    Database.deleteUser Sample.john (run "id-1" "id-2" [Connect])
    = (Resolved true, d')
    /\ findUserById Sample.john d' = (Resolved None, d').
Proof.
  destruct (X12_delete_removes "id-1" "id-2" [Connect] Sample.john eq_refl)
    as [_ Hdel].
  destruct Hdel as (d' & Hd & Hfind & _); [by eexists|].
  exists d'. by split.
Defined.

(** ** The store: records and their keys *)

Lemma perform_keyed (o : operation) (d : Store) :
  patch_without_id o = true ->
  keyed_by_id (users d) -> keyed_by_id (users (perform d o)).
Proof.
  intros Hok Hkeyed. destruct o; simpl perform; try done.
  - unfold Database.createUser, notConnected.
    destruct (isConnected d); simpl; [|done].
    destruct (List.find _ _); simpl; [done|].
    intros k u [[-> ->]|Hin]%In_Map_set; [done|by apply Hkeyed].
  - unfold Database.updateUser, notConnected.
    destruct (isConnected d); simpl; [|done].
    destruct (Map_get _ _) as [user|] eqn:Hu; simpl; [|done].
    destruct (if _ && _ then _ else _); simpl; [done|].
    intros k u [[-> ->]|Hin]%In_Map_set; [|by apply Hkeyed].
    simpl in Hok. apply bool_decide_eq_true_1 in Hok.
    rewrite lookup_insert_ne, lookup_spread_absent by done.
    by apply Hkeyed, Map_get_In_entry.
  - unfold Database.deleteUser, notConnected.
    destruct (isConnected d); simpl; [|done].
    destruct (Map_has _ _); simpl; [|done].
    intros k u Hin. by apply Hkeyed, (In_Map_delete _ _ (of_json id)).
  - unfold clearAllData, notConnected.
    destruct (isConnected d); simpl; [|done]. by intros k u [].
Qed.

Lemma run_keyed (uuid1 uuid2 : string) (ops : list operation) :
  forallb patch_without_id ops = true ->
  keyed_by_id (users (run uuid1 uuid2 ops)).
Proof.
  unfold run.
  assert (Hnew : keyed_by_id (users (new uuid1 uuid2))).
  { unfold new, seedData, sampleUsers. cbn [users fold_left].
    intros k u [[-> ->]|[[-> ->]|[]]%In_Map_set]%In_Map_set; reflexivity. }
  revert Hnew. generalize (new uuid1 uuid2).
  induction ops as [|o ops IH]; intros d Hk Hok; simpl in *; [done|].
  apply andb_true_iff in Hok as [Ho Hok].
  apply IH; [|done]. by apply perform_keyed.
Qed.

(** X13: in every state reached by a run of store operations in which no
    update patch names [id], the record found under an id has that id, and
    every stored record is the one found under its own id. *)
Theorem X13_records_keyed_by_id
    (uuid1 uuid2 : string) (ops : list operation) :
  forallb patch_without_id ops = true ->
  let d := run uuid1 uuid2 ops in
  (forall id u, Map_get (of_json id) (users d) = Some u ->
                u !! "id" = of_json id)
  /\ (forall u, In u (Map_values (users d)) ->
                Map_get (u !! "id") (users d) = Some u).
Proof.
  intros Hok d. pose proof (run_keyed uuid1 uuid2 ops Hok) as Hkeyed.
  pose proof (run_keys uuid1 uuid2 ops) as Hnd. fold d in Hkeyed, Hnd.
  split.
  - intros id u Hg. by apply Hkeyed, Map_get_In_entry.
  - intros u Hin. unfold Map_values in Hin.
    apply in_map_iff in Hin as ([k u'] & Hu & Hin). simpl in Hu. subst u'.
    rewrite (Hkeyed k u Hin). by apply In_entry_Map_get.
Qed.

Lemma X13_records_keyed_by_id_witness :
  exists u,
    Map_get (of_json (Some (JStr "id-3")))
      (users (run "id-1" "id-2" Sample.mixedRun)) = Some u
    /\ u !! "id" = Some (FJson (JStr "id-3")).
Proof.
  eexists. split; [reflexivity|].
  apply (proj1 (X13_records_keyed_by_id "id-1" "id-2" Sample.mixedRun
                  eq_refl) (Some (JStr "id-3"))).
  reflexivity.
Defined.

(** ** The store: seed and clear *)

(** X14: a new store is disconnected.  Once connected, [findAllUsers]
    lists the two sample users, John Doe first, when the two generated ids
    differ; if the two calls of [uuidv4()] returned the same id, the
    second sample user would have replaced the first and be the only
    record. *)
Theorem X14_seeded_listing (uuid1 uuid2 : string) :
  let d := (connect (new uuid1 uuid2)).2 in
  isConnected (new uuid1 uuid2) = false
  /\ (uuid1 <> uuid2 ->
      findAllUsers d = (Resolved (sampleUsers uuid1 uuid2), d))
  /\ (uuid1 = uuid2 ->
      findAllUsers d = (Resolved (drop 1 (sampleUsers uuid1 uuid2)), d)).
Proof.
  intros d. split; [reflexivity|].
  unfold findAllUsers, d, connect, new, seedData, sampleUsers.
  match goal with
  | |- context [fold_left _ [?a; ?b] _] => set (john := a); set (jane := b)
  end.
  cbn [snd isConnected users negb fold_left].
  assert (Hjohn : john !! "id" = Some (FJson (JStr uuid1))) by reflexivity.
  assert (Hjane : jane !! "id" = Some (FJson (JStr uuid2))) by reflexivity.
  rewrite Hjohn, Hjane. cbn [Map_set].
  split; intros Hne.
  - rewrite decide_False by congruence. reflexivity.
  - rewrite decide_True by congruence. reflexivity.
Qed.

Lemma X14_seeded_listing_witness :
  findAllUsers Sample.seeded
  = (Resolved (sampleUsers "id-1" "id-2"), Sample.seeded).
Proof.
  apply (proj1 (proj2 (X14_seeded_listing "id-1" "id-2"))). discriminate.
Defined.

(** X15: on a connected store [clearAllData] is accepted; afterwards the
    listing is empty, no id and no email is found, and [createUser]
    accepts any creation data, whose record is then the only one. *)
Theorem X15_clear_empties
    (d : Store) (uuid : string) (createdNow updatedNow : Z)
    (id email : option jsval) (userData : obj) :
  isConnected d = true ->
  exists d',
    clearAllData d = (Resolved true, d')
    /\ findAllUsers d' = (Resolved [], d')
    /\ findUserById id d' = (Resolved None, d')
    /\ findUserByEmail email d' = (Resolved None, d')
    /\ exists u d'',
         Database.createUser uuid createdNow updatedNow userData d'
         = (Resolved u, d'')
         /\ findAllUsers d'' = (Resolved [u], d'').
Proof.
  intros Hc. unfold clearAllData. rewrite Hc. cbn [negb].
  eexists. split; [reflexivity|].
  unfold findAllUsers, findUserById, findUserByEmail, Database.createUser.
  cbn [isConnected users negb Map_values map List.find Map_get Map_set].
  repeat split.
  eexists _, _. split; [reflexivity|]. reflexivity.
Qed.

Lemma X15_clear_empties_witness :
  exists d',
    clearAllData Sample.seeded = (Resolved true, d')
    /\ findAllUsers d' = (Resolved [], d').
Proof.
  destruct (X15_clear_empties Sample.seeded "id-3" 1 2 None None ∅ eq_refl)
    as (d' & Hclear & Hall & _).
  by exists d'.
Defined.

(** ** The service: identifiers and failures *)

(** X16: for a falsy id ([undefined], [null], the empty string, 0,
    [false]) [getUserById], [updateUser] and [deleteUser] answer with
    the envelope 'User ID is required' / 'Invalid input'; this holds for
    every injected database, whose state is untouched. *)
Theorem X16_id_required
    {S : Type} {API : DatabaseAPI S} (s : S) (id : option jsval)
    (updateData : obj) :
  truthy id = false ->
  UserService.getUserById id s
  = (failure "User ID is required" "Invalid input", s)
  /\ UserService.updateUser id updateData s
     = (failure "User ID is required" "Invalid input", s)
  /\ UserService.deleteUser id s
     = (failure "User ID is required" "Invalid input", s).
Proof.
  intros Hid.
  unfold UserService.getUserById, UserService.updateUser,
    UserService.deleteUser, try_catch, ret.
  rewrite Hid. done.
Qed.

Lemma X16_id_required_witness :
  @UserService.deleteUser _ Sample.recorder (Some (JStr "")) []
  = (failure "User ID is required" "Invalid input", []).
Proof.
  apply (X16_id_required (API := Sample.recorder) [] (Some (JStr "")) ∅).
  reflexivity.
Defined.

(** X17: on a disconnected store every service operation, given input
    that passes its own checks, fails with the error 'Database not
    connected' and its own message, and the store stays as it was.  The
    handlers answer 500 for the listing and the statistics, and 400 for
    the four operations on one user. *)
Theorem X17_disconnected_service
    (d : Store) (uuid : string) (createdNow updatedNow : Z)
    (id : option jsval) (userData updateData : obj) :
  let db := mockDatabase uuid createdNow updatedNow in
  isConnected d = false ->
  truthy id = true ->
  isValid (validateUserData userData) = true ->
  isValid (validateUpdateData updateData) = true ->
  (@UserService.getAllUsers _ db d
   = (failure "Database not connected" "Failed to retrieve users", d)
   /\ (@Handlers.getAllUsers _ db d).1.(status) = 500)
  /\ (@UserService.getUserById _ db id d
      = (failure "Database not connected" "Failed to retrieve user", d)
      /\ (@Handlers.getUserById _ db id d).1.(status) = 400)
  /\ (@UserService.createUser _ db userData d
      = (failure "Database not connected" "Failed to create user", d)
      /\ (@Handlers.createUser _ db userData d).1.(status) = 400)
  /\ (@UserService.updateUser _ db id updateData d
      = (failure "Database not connected" "Failed to update user", d)
      /\ (@UserController.updateUser _ db id updateData d).1.(status) = 400)
  /\ (@UserService.deleteUser _ db id d
      = (failure "Database not connected" "Failed to delete user", d)
      /\ (@Handlers.deleteUser _ db id d).1.(status) = 400)
  /\ (@UserService.getUserStats _ db d
      = (failure "Database not connected"
           "Failed to retrieve user statistics", d)
      /\ (@Handlers.getUserStats _ db d).1.(status) = 500).
Proof.
  intros db Hd Hid Hv Hv'.
  unfold Handlers.getAllUsers, Handlers.getUserById, Handlers.createUser,
    UserController.updateUser, Handlers.deleteUser, Handlers.getUserStats.
  unfold UserService.getAllUsers, UserService.getUserById,
    UserService.createUser, UserService.updateUser, UserService.deleteUser,
    UserService.getUserStats, try_catch, await, ret.
  rewrite Hid, Hv, Hv'.
  cbn [negb db mockDatabase db_findAllUsers db_findUserById
         db_findUserByEmail db_createUser db_updateUser db_deleteUser].
  unfold findAllUsers, findUserById, findUserByEmail, notConnected.
  rewrite Hd. cbn [negb]. repeat split.
Qed.

Lemma X17_disconnected_service_witness :
  @UserService.createUser _ (mockDatabase "id-3" 1000 1001) Sample.testUser
    (new "id-1" "id-2")
  = (failure "Database not connected" "Failed to create user",
     new "id-1" "id-2").
Proof.
  assert (Hv : isValid (validateUserData Sample.testUser) = true)
    by (vm_compute; reflexivity).
  assert (Hv' : isValid (validateUpdateData (∅ : obj)) = true)
    by (vm_compute; reflexivity).
  destruct (X17_disconnected_service (new "id-1" "id-2") "id-3" 1000 1001
              Sample.john Sample.testUser ∅ eq_refl eq_refl Hv Hv')
    as (_ & _ & [Hcreate _] & _).
  exact Hcreate.
Defined.

(** X18: through the service, the mock database is changed only by a
    creation, an update or a deletion that succeeds: the listing, the
    lookup and the statistics never change it, and an operation whose
    envelope has [success] false leaves it as it was. *)
Theorem X18_failure_changes_nothing
    (d : Store) (uuid : string) (createdNow updatedNow : Z)
    (id : option jsval) (userData updateData : obj) :
  let db := mockDatabase uuid createdNow updatedNow in
  (@UserService.getAllUsers _ db d).2 = d
  /\ (@UserService.getUserById _ db id d).2 = d
  /\ (@UserService.getUserStats _ db d).2 = d
  /\ (success (@UserService.createUser _ db userData d).1 = false ->
      (@UserService.createUser _ db userData d).2 = d)
  /\ (success (@UserService.updateUser _ db id updateData d).1 = false ->
      (@UserService.updateUser _ db id updateData d).2 = d)
  /\ (success (@UserService.deleteUser _ db id d).1 = false ->
      (@UserService.deleteUser _ db id d).2 = d).
Proof.
  intros db.
  unfold UserService.getAllUsers, UserService.getUserById,
    UserService.createUser, UserService.updateUser, UserService.deleteUser,
    UserService.getUserStats, try_catch, await, ret.
  cbn [db mockDatabase db_findAllUsers db_findUserById
         db_findUserByEmail db_createUser db_updateUser db_deleteUser].
  unfold findAllUsers, findUserById, findUserByEmail, Database.createUser,
    Database.updateUser, Database.deleteUser, Map_has, notConnected.
  repeat split; intros; repeat case_match; simplify_eq/=; done.
Qed.

Lemma X18_failure_changes_nothing_witness :
  success (@UserService.updateUser _ (mockDatabase "id-3" 1000 2000)
             Sample.john Sample.emailPatch Sample.seeded).1 = false
  /\ (@UserService.updateUser _ (mockDatabase "id-3" 1000 2000)
        Sample.john Sample.emailPatch Sample.seeded).2 = Sample.seeded.
Proof.
  assert (H : success (@UserService.updateUser _
                         (mockDatabase "id-3" 1000 2000)
                         Sample.john Sample.emailPatch Sample.seeded).1
              = false) by reflexivity.
  split; [exact H|].
  destruct (X18_failure_changes_nothing Sample.seeded "id-3" 1000 2000
              Sample.john ∅ Sample.emailPatch)
    as (_ & _ & _ & _ & Hup & _).
  exact (Hup H).
Defined.

(** ** The service: create, look up, delete *)

Lemma findUserByEmail_connected (email : option jsval) (d : Store) :
  isConnected d = true ->
  findUserByEmail email d
  = (Resolved (List.find (fun u : record => strict_eq (u !! "email") email)
                 (Map_values (users d))), d).
Proof. intros Hc. unfold findUserByEmail. by rewrite Hc. Qed.

(** X19: on a connected store, creation data that passes validation, has
    an email that no stored record has and has no [id] is created: the
    service succeeds with the new record, the handler answers 201, and
    [getUserById] with the generated id then succeeds with the same
    record. *)
Theorem X19_create_then_get
    (d : Store) (uuid : string) (createdNow updatedNow : Z)
    (userData : obj) :
  let db := mockDatabase uuid createdNow updatedNow in
  isConnected d = true ->
  isValid (validateUserData userData) = true ->
  (forall v, In v (Map_values (users d)) ->
             v !! "email" <> of_json (userData !! "email")) ->
  userData !! "id" = None ->
  uuid <> "" ->
  exists u d',
    @UserService.createUser _ db userData d
    = ({| success := true; data := Some (User u); error := None;
          message := "User created successfully" |}, d')
    /\ (@Handlers.createUser _ db userData d).1.(status) = 201
    /\ @UserService.getUserById _ db (Some (JStr uuid)) d'
       = ({| success := true; data := Some (User u); error := None;
             message := "User retrieved successfully" |}, d')
    /\ u !! "name" = of_json (userData !! "name")
    /\ u !! "email" = of_json (userData !! "email")
    /\ u !! "age" = of_json (userData !! "age").
Proof.
  intros db Hc Hv Hfresh Hid Huuid.
  assert (Hfind : List.find
                    (fun u : record => strict_eq (u !! "email")
                                         (userData !! "email"))
                    (Map_values (users d)) = None).
  { destruct (List.find _ _) as [w|] eqn:Hf; [|done].
    apply find_some in Hf as [Hin Hw].
    apply bool_decide_eq_true_1 in Hw. by destruct (Hfresh w Hin). }
  destruct (createUser_without_id uuid createdNow updatedNow userData d
              Hc Hid Hfind) as (u & d' & Hcreate & Hu & Hget & _).
  assert (Hc' : isConnected d' = true).
  { apply createUser_resolved in Hcreate as [_ ->]. exact Hc. }
  assert (Hsvc : @UserService.createUser _ db userData d
                 = ({| success := true; data := Some (User u);
                       error := None;
                       message := "User created successfully" |}, d')).
  { unfold UserService.createUser, try_catch, await, ret. rewrite Hv.
    cbn [negb db mockDatabase db_findUserByEmail db_createUser].
    by rewrite (findUserByEmail_connected _ _ Hc), Hfind, Hcreate. }
  exists u, d'. split; [exact Hsvc|]. split.
  { unfold Handlers.createUser. by rewrite Hsvc. }
  split.
  { unfold UserService.getUserById, try_catch, await, ret.
    assert (Ht : truthy (Some (JStr uuid)) = true).
    { simpl. apply negb_true_iff. by apply String.eqb_neq. }
    rewrite Ht. cbn [negb db mockDatabase db_findUserById].
    rewrite (findUserById_connected _ _ Hc'). unfold of_json. simpl.
    by rewrite Hget. }
  apply createUser_resolved in Hcreate as [Hshape _].
  assert (Hf : forall f, f <> "createdAt" -> f <> "updatedAt" -> f <> "id" ->
                         u !! f = of_json (userData !! f)).
  { intros f H1 H2 H3. rewrite Hshape, lookup_created by done.
    unfold of_json. destruct (userData !! f); [done|].
    by rewrite decide_False. }
  by rewrite !Hf.
Qed.

Lemma X19_create_then_get_witness :
  exists u d',
    @UserService.createUser _ (mockDatabase "id-3" 1000 1001)
      Sample.testUser Sample.seeded
    = ({| success := true; data := Some (User u); error := None;
          message := "User created successfully" |}, d')
    /\ @UserService.getUserById _ (mockDatabase "id-3" 1000 1001)
         (Some (JStr "id-3")) d'
       = ({| success := true; data := Some (User u); error := None;
             message := "User retrieved successfully" |}, d').
Proof.
  assert (Hv : isValid (validateUserData Sample.testUser) = true)
    by (vm_compute; reflexivity).
  assert (Hfresh : forall v, In v (Map_values (users Sample.seeded)) ->
            v !! "email" <> of_json (Sample.testUser !! "email")).
  { intros v [<-|[<-|[]]]; vm_compute; discriminate. }
  destruct (X19_create_then_get Sample.seeded "id-3" 1000 1001
              Sample.testUser eq_refl Hv Hfresh eq_refl)
    as (u & d' & Hcreate & _ & Hget & _); [discriminate|].
  exists u, d'. split; [exact Hcreate|exact Hget].
Defined.

(** X20: when creation data passes validation and the database finds a
    user with its email, [createUser] answers 'User with this email
    already exists' / 'Duplicate email address' and the handler answers
    409; the database is asked for the email only, its [createUser] is
    not called.  This holds for every injected database. *)
Theorem X20_duplicate_email_on_create
    {S : Type} {API : DatabaseAPI S} (s s' : S) (userData : obj)
    (existing : record) :
  isValid (validateUserData userData) = true ->
  db_findUserByEmail (userData !! "email") s = (Resolved (Some existing), s') ->
  UserService.createUser userData s
  = (failure "User with this email already exists" "Duplicate email address",
     s')
  /\ (Handlers.createUser userData s).1.(status) = 409.
Proof.
  intros Hv Hfind.
  assert (Hsvc : UserService.createUser userData s
                 = (failure "User with this email already exists"
                      "Duplicate email address", s')).
  { unfold UserService.createUser, try_catch, await, ret. rewrite Hv.
    cbn [negb]. by rewrite Hfind. }
  split; [exact Hsvc|]. unfold Handlers.createUser. by rewrite Hsvc.
Qed.

Lemma X20_duplicate_email_on_create_witness :
  (@Handlers.createUser _ (mockDatabase "id-3" 1000 1001)
     (<["email" := JStr "john@example.com"]> Sample.testUser)
     Sample.seeded).1.(status) = 409.
Proof.
  assert (Hv : isValid (validateUserData
                          (<["email" := JStr "john@example.com"]>
                             Sample.testUser)) = true)
    by (vm_compute; reflexivity).
  refine (proj2 (X20_duplicate_email_on_create
                   (API := mockDatabase "id-3" 1000 1001)
                   Sample.seeded Sample.seeded
                   (<["email" := JStr "john@example.com"]> Sample.testUser)
                   (default ∅ (Map_get (of_json Sample.john)
                                 (users Sample.seeded)))
                   Hv _)).
  reflexivity.
Defined.

(** X21: in every state that a run of store operations reaches, on a
    connected store, deleting a stored user by a truthy id succeeds (the
    handler answers 200); looking the id up afterwards gives the
    not-found envelope (404), and so does deleting it again. *)
Theorem X21_delete_then_get
    (uuid1 uuid2 : string) (ops : list operation)
    (uuid : string) (createdNow updatedNow : Z) (id : option jsval) :
  let db := mockDatabase uuid createdNow updatedNow in
  let d := run uuid1 uuid2 ops in
  isConnected d = true ->
  truthy id = true ->
  is_Some (Map_get (of_json id) (users d)) ->
  exists d',
    @UserService.deleteUser _ db id d
    = ({| success := true; data := None; error := None;
          message := "User deleted successfully" |}, d')
    /\ (@Handlers.deleteUser _ db id d).1.(status) = 200
    /\ @UserService.getUserById _ db id d' = (notFound, d')
    /\ (@Handlers.getUserById _ db id d').1.(status) = 404
    /\ @UserService.deleteUser _ db id d' = (notFound, d')
    /\ (@Handlers.deleteUser _ db id d').1.(status) = 404.
Proof.
  intros db d Hc Hid Hsome.
  destruct (deleteUser_removes d id (run_keys uuid1 uuid2 ops) Hc)
    as [_ Hdel].
  destruct (Hdel Hsome) as (d' & Hd & Hfind & _ & _).
  destruct Hsome as [u Hu].
  assert (Hsvc : @UserService.deleteUser _ db id d
                 = ({| success := true; data := None; error := None;
                       message := "User deleted successfully" |}, d')).
  { unfold UserService.deleteUser, try_catch, await, ret. rewrite Hid.
    cbn [negb db mockDatabase db_findUserById db_deleteUser].
    by rewrite (findUserById_connected _ _ Hc), Hu, Hd. }
  assert (Hget : @UserService.getUserById _ db id d' = (notFound, d')).
  { unfold UserService.getUserById, try_catch, await, ret. rewrite Hid.
    cbn [negb db mockDatabase db_findUserById]. by rewrite Hfind. }
  assert (Hagain : @UserService.deleteUser _ db id d' = (notFound, d')).
  { unfold UserService.deleteUser, try_catch, await, ret. rewrite Hid.
    cbn [negb db mockDatabase db_findUserById]. by rewrite Hfind. }
  exists d'. split; [exact Hsvc|].
  unfold Handlers.deleteUser, Handlers.getUserById.
  by rewrite Hsvc, Hget, Hagain.
Qed.

Lemma X21_delete_then_get_witness :
  exists d',
    (@UserService.deleteUser _ (mockDatabase "id-3" 1000 1001) Sample.john
       (run "id-1" "id-2" [Connect])).2 = d'
    /\ @UserService.getUserById _ (mockDatabase "id-3" 1000 1001)
         Sample.john d' = (notFound, d').
Proof.
  destruct (X21_delete_then_get "id-1" "id-2" [Connect] "id-3" 1000 1001
              Sample.john eq_refl eq_refl)
    as (d' & Hdel & _ & Hget & _); [by eexists|].
  exists d'. split; [by rewrite Hdel|exact Hget].
Defined.

(** ** The controller: status codes *)

(** X22: whatever database is injected, each of the six handlers leaves
    it in the state in which the service's operation left it, and sends a
    body with the [success] and the [message] of the envelope that the
    operation returned, with a status below 400 exactly when [success] is
    true.  On success the status is 201 for a creation and 200 otherwise,
    and the body has the envelope's [data], except for a deletion, whose
    body never has [data].  On failure the body has the envelope's [error]
    and no [data]; the listing and the statistics answer 500, the lookup
    and the deletion 404 exactly for the error 'User not found' and 400
    otherwise, the creation 409 exactly for 'User with this email already
    exists' and 400 otherwise. *)
Theorem X22_status_codes
    {S : Type} {API : DatabaseAPI S} (s : S) (id : option jsval)
    (userData updateData : obj) :
  Forall
    (fun p : (Envelope * S) * (Response * S) =>
       let result := p.1.1 in
       let r := p.2.1 in
       p.2.2 = p.1.2
       /\ success (json r) = success result
       /\ message (json r) = message result
       /\ (status r < 400 <-> success result = true)
       /\ (success result = false ->
           error (json r) = error result /\ data (json r) = None)
       /\ (success result = true -> error (json r) = None))
    [ (UserService.getAllUsers s, Handlers.getAllUsers s);
      (UserService.getUserById id s, Handlers.getUserById id s);
      (UserService.createUser userData s, Handlers.createUser userData s);
      (UserService.updateUser id updateData s,
       UserController.updateUser id updateData s);
      (UserService.deleteUser id s, Handlers.deleteUser id s);
      (UserService.getUserStats s, Handlers.getUserStats s) ]
  /\ Forall
       (fun p : (Envelope * S) * (Response * S) =>
          success p.1.1 = true ->
          status p.2.1 = 200 /\ data (json p.2.1) = data p.1.1)
       [ (UserService.getAllUsers s, Handlers.getAllUsers s);
         (UserService.getUserById id s, Handlers.getUserById id s);
         (UserService.updateUser id updateData s,
          UserController.updateUser id updateData s);
         (UserService.getUserStats s, Handlers.getUserStats s) ]
  /\ (let result := (UserService.createUser userData s).1 in
      let r := (Handlers.createUser userData s).1 in
      (success result = true ->
       status r = 201 /\ data (json r) = data result)
      /\ (success result = false ->
          (status r = 409
           <-> error result = Some "User with this email already exists")
          /\ (status r = 400
              <-> error result
                  <> Some "User with this email already exists")))
  /\ (let result := (UserService.deleteUser id s).1 in
      let r := (Handlers.deleteUser id s).1 in
      data (json r) = None
      /\ (success result = true -> status r = 200)
      /\ (success result = false ->
          (status r = 404 <-> error result = Some "User not found")
          /\ (status r = 400 <-> error result <> Some "User not found")))
  /\ (let result := (UserService.getUserById id s).1 in
      let r := (Handlers.getUserById id s).1 in
      success result = false ->
      (status r = 404 <-> error result = Some "User not found")
      /\ (status r = 400 <-> error result <> Some "User not found"))
  /\ (success (UserService.getAllUsers s).1 = false ->
      status (Handlers.getAllUsers s).1 = 500)
  /\ (success (UserService.getUserStats s).1 = false ->
      status (Handlers.getUserStats s).1 = 500).
Proof.
  unfold Handlers.getAllUsers, Handlers.getUserById, Handlers.createUser,
    UserController.updateUser, Handlers.deleteUser, Handlers.getUserStats.
  destruct (UserService.getAllUsers s) as [e1 s1].
  destruct (UserService.getUserById id s) as [e2 s2].
  destruct (UserService.createUser userData s) as [e3 s3].
  destruct (UserService.updateUser id updateData s) as [e4 s4].
  destruct (UserService.deleteUser id s) as [e5 s5].
  destruct (UserService.getUserStats s) as [e6 s6].
  unfold Handlers.getAllUsers_response, Handlers.getUserById_response,
    Handlers.createUser_response, updateUser_response,
    Handlers.deleteUser_response, Handlers.getUserStats_response,
    Handlers.ok_body, Handlers.error_body.
  repeat match goal with
         | |- _ /\ _ => split
         | |- Forall _ _ => constructor
         end;
    cbn [fst snd];
    repeat match goal with
           | |- context [success ?e] =>
               is_var e; let E := fresh in destruct (success e) eqn:E
           end;
    cbn [status json success message error data];
    repeat case_bool_decide;
    try done; try (intros; done); try (intros; lia);
    try (split; intros; (done || lia)).
Qed.

Lemma X22_status_codes_witness :
  status (@Handlers.getUserById _ (mockDatabase "id-3" 1000 1001)
            (Some (JStr "no-such-id")) Sample.seeded).1 = 404.
Proof.
  destruct (X22_status_codes (API := mockDatabase "id-3" 1000 1001)
              Sample.seeded (Some (JStr "no-such-id")) ∅ ∅)
    as (_ & _ & _ & _ & Hget & _).
  apply Hget; reflexivity.
Defined.

(** ** The service: update, and a second creation *)

(** X24: when the id is truthy, the patch passes validation and the
    store accepts the update, the service succeeds with the updated
    record, the handler answers 200, and [getUserById] with the same id
    then succeeds with that record. *)
Theorem X24_update_then_get
    (d d' : Store) (uuid : string) (createdNow now : Z)
    (id : option jsval) (updateData : obj) (u' : record) :
  let db := mockDatabase uuid createdNow now in
  truthy id = true ->
  isValid (validateUpdateData updateData) = true ->
  Database.updateUser now id updateData d = (Resolved u', d') ->
  @UserService.updateUser _ db id updateData d
  = ({| success := true; data := Some (User u'); error := None;
        message := "User updated successfully" |}, d')
  /\ (@UserController.updateUser _ db id updateData d).1.(status) = 200
  /\ @UserService.getUserById _ db id d'
     = ({| success := true; data := Some (User u'); error := None;
           message := "User retrieved successfully" |}, d').
Proof.
  intros db Hid Hv Hup.
  assert (Hc : isConnected d = true).
  { unfold Database.updateUser in Hup. by destruct (isConnected d). }
  destruct (Map_get (of_json id) (users d)) as [user|] eqn:Hu.
  2: { unfold Database.updateUser in Hup. rewrite Hc, Hu in Hup.
       discriminate Hup. }
  destruct (updateUser_resolved _ _ _ _ _ _ _ Hu Hup) as [_ Hd'].
  assert (Hsvc : @UserService.updateUser _ db id updateData d
                 = ({| success := true; data := Some (User u');
                       error := None;
                       message := "User updated successfully" |}, d')).
  { unfold UserService.updateUser, try_catch, await, ret. rewrite Hid, Hv.
    cbn [negb db mockDatabase db_findUserById db_updateUser].
    by rewrite (findUserById_connected _ _ Hc), Hu, Hup. }
  split; [exact Hsvc|]. split.
  { unfold UserController.updateUser. by rewrite Hsvc. }
  unfold UserService.getUserById, try_catch, await, ret. rewrite Hid.
  cbn [negb db mockDatabase db_findUserById].
  assert (Hc' : isConnected d' = true) by (by rewrite Hd').
  rewrite (findUserById_connected _ _ Hc'). rewrite Hd'.
  cbn [users]. by rewrite Map_get_set_eq.
Qed.

Lemma X24_update_then_get_witness :
  exists u' d',
    @UserService.updateUser _ (mockDatabase "id-3" 1000 2000) Sample.john
      {["age" := JNum (num 31)]} Sample.seeded
    = ({| success := true; data := Some (User u'); error := None;
          message := "User updated successfully" |}, d')
    /\ u' !! "age" = Some (FJson (JNum (num 31))).
Proof.
  assert (Hv : isValid (validateUpdateData {["age" := JNum (num 31)]})
               = true) by (vm_compute; reflexivity).
  eexists _, _. split.
  - apply (X24_update_then_get Sample.seeded _ "id-3" 1000 2000 Sample.john
             {["age" := JNum (num 31)]} _ eq_refl Hv eq_refl).
  - vm_compute. reflexivity.
Defined.

(** X25: after the store has accepted creation data whose email is a
    string, a creation through the service with data of the same email
    that passes validation is refused with 'User with this email already
    exists' / 'Duplicate email address', the handler answers 409, and the
    store keeps the state the first creation left. *)
Theorem X25_second_create_is_refused
    (d d' : Store) (uuid uuid' : string)
    (createdNow updatedNow createdNow' updatedNow' : Z)
    (userData userData' : obj) (email : string) (u : record) :
  let db := mockDatabase uuid' createdNow' updatedNow' in
  Database.createUser uuid createdNow updatedNow userData d
  = (Resolved u, d') ->
  userData !! "email" = Some (JStr email) ->
  userData' !! "email" = Some (JStr email) ->
  isValid (validateUserData userData') = true ->
  @UserService.createUser _ db userData' d'
  = (failure "User with this email already exists" "Duplicate email address",
     d')
  /\ (@Handlers.createUser _ db userData' d').1.(status) = 409.
Proof.
  intros db Hcreate He He' Hv.
  pose proof (createUser_found_by_email _ _ _ _ _ _ _ Hcreate) as Hfind.
  assert (Hsvc : @UserService.createUser _ db userData' d'
                 = (failure "User with this email already exists"
                      "Duplicate email address", d')).
  { unfold UserService.createUser, try_catch, await, ret. rewrite Hv.
    cbn [negb db mockDatabase db_findUserByEmail].
    by rewrite He', <- He, Hfind. }
  split; [exact Hsvc|]. unfold Handlers.createUser. by rewrite Hsvc.
Qed.

Lemma X25_second_create_is_refused_witness :
  exists d',
    (Database.createUser "id-3" 1000 1001 Sample.testUser Sample.seeded).2
    = d'
    /\ (@Handlers.createUser _ (mockDatabase "id-4" 2000 2001)
          Sample.testUser d').1.(status) = 409.
Proof.
  assert (Hv : isValid (validateUserData Sample.testUser) = true)
    by (vm_compute; reflexivity).
  eexists. split; [reflexivity|].
  refine (proj2 (X25_second_create_is_refused Sample.seeded _ "id-3" "id-4"
                   1000 1001 2000 2001 Sample.testUser Sample.testUser
                   "test@example.com" _ _ eq_refl eq_refl Hv)).
  reflexivity.
Defined.

(** ** The store: emails that are strings stay unique *)

(** X27: in every state that a run of connect, disconnect, create, update,
    delete and clear operations reaches from the seeded initial state, no
    two stored records have the same email, provided the emails that the
    operations bring are strings: the creation data has a string as
    [email] or none, and a patch a string that is not empty or none. *)
Theorem X27_string_emails_stay_unique
    (uuid1 uuid2 : string) (ops : list operation) :
  forallb string_emails ops = true ->
  List.NoDup (emails (run uuid1 uuid2 ops)).
Proof.
  intros Hops. apply run_emails.
  apply forallb_forall. intros o Ho. apply string_emails_truthy.
  by apply (proj1 (forallb_forall _ _) Hops).
Qed.

Lemma X27_string_emails_stay_unique_witness :
  forallb string_emails Sample.mixedRun = true
  /\ List.NoDup (emails (run "id-1" "id-2" Sample.mixedRun)).
Proof.
  split; [reflexivity|].
  apply (X27_string_emails_stay_unique "id-1" "id-2" Sample.mixedRun).
  reflexivity.
Defined.
